(** * A1Axiom / RADM: the anomaly detector, the fault injector, the healer,
      the SBOH percentile and the audit ledger, embedded from the Go sources.

    Conventions of the embedding.
    - A Go [int] or [int64] is a [Z]; where the source does arithmetic on it
      the 64-bit wrap-around is written out ([wrap64]).
    - A Go [float64] is a carrier [F] with the operations the source uses
      (class [Float64]).  The instance [binary64] is IEEE 754 binary64 with
      round-to-nearest-even as Rocq's primitive floats compute it, which is
      what the Go compiler emits when it does not fuse multiply-add (the
      default amd64 target).  Facts about all float64 values rest on the
      specification of the primitive operations ([FloatAxioms]).
    - A run-time panic (index or slice bound out of range, [make] with a
      negative capacity) is the result [None].
    - [time.Now()] and the random source are inputs of the embedding: a clock
      reading in nanoseconds and a stream of draws with a read position.
    - Locks are left out: the embedding is the sequential behaviour of the
      calls, one at a time. *)

From Stdlib Require Import ZArith List Bool Lia Permutation Sorted.
From Stdlib Require Import Floats.PrimFloat Floats.SpecFloat Floats.FloatOps.
From Stdlib Require Import Floats.FloatAxioms Uint63.
From Stdlib Require Import DecimalString.
From stdpp Require Import gmap strings.
Import ListNotations.

Local Open Scope Z_scope.

(** Two's complement wrap-around of a Go [int64]. *)
Definition wrap64 (z : Z) : Z := (z + 2 ^ 63) mod 2 ^ 64 - 2 ^ 63.

(** [%d] of an integer. *)
Definition fmt_d (z : Z) : string := NilZero.string_of_int (Z.to_int z).

(** Go slices as lists: [s[low:]] panics unless [0 <= low <= len(s)];
    [make([]T, n)] is [n] zero values and panics on a negative [n];
    [copy(dst, src)] overwrites the first [min(len(dst), len(src))] cells of
    [dst]. *)
Module Slice.

Definition from {A : Type} (s : list A) (low : Z) : option (list A) :=
  if (low <? 0) || (Z.of_nat (length s) <? low) then None
  else Some (skipn (Z.to_nat low) s).

Definition make {A : Type} (zero : A) (n : Z) : option (list A) :=
  if n <? 0 then None else Some (repeat zero (Z.to_nat n)).

Definition copy {A : Type} (dst src : list A) : list A :=
  firstn (length dst) src ++ skipn (length src) dst.

End Slice.

(** ** anomaly/anomaly.go *)

Module Anomaly.

(** The float64 operations [ProcessData] uses. *)
Class Float64 (F : Type) : Type := {
  f_zero : F;
  f_add : F -> F -> F;
  f_sub : F -> F -> F;
  f_mul : F -> F -> F;
  f_div : F -> F -> F;
  f_sqrt : F -> F;                (* math.Sqrt *)
  f_abs : F -> F;                 (* math.Abs *)
  f_lt : F -> F -> bool;          (* x < y *)
  f_eq : F -> F -> bool;          (* x == y *)
  f_of_int : Z -> F;              (* float64(n) *)
  f_max : F                       (* math.MaxFloat64 *)
}.

Section Detector.
Context {F : Type} `{Float64 F}.

Record AnomalyDetector : Type := mkDetector {
  WindowSize : Z;
  Threshold : F;
  dataWindow : list F;
  sum : F;
  sumOfSquares : F
}.

Record DataPoint : Type := mkDataPoint {
  Timestamp : Z;
  Value : F
}.

(** The three results of [ProcessData]; [err] is [nil] on every path. *)
Record Verdict : Type := mkVerdict {
  isAnomaly : bool;
  zScore : F;
  err : option string
}.

(** The struct [NewDetector] builds: empty window, zero sums. *)
Definition fresh (windowSize : Z) (threshold : F) : AnomalyDetector :=
  {| WindowSize := windowSize; Threshold := threshold;
     dataWindow := []; sum := f_zero; sumOfSquares := f_zero |}.

(** [make([]float64, 0, windowSize)] panics on a negative capacity. (It also
    panics on a capacity beyond the allocator's platform limit, which is not
    modelled.) *)
Definition NewDetector (windowSize : Z) (threshold : F) : option AnomalyDetector :=
  if windowSize <? 0 then None else Some (fresh windowSize threshold).

(** Lines 42-47: the eviction branch.  [ad.dataWindow[0]] on an empty window
    is an index out of range. *)
Definition evict (ad : AnomalyDetector) : option AnomalyDetector :=
  if Z.of_nat (length (dataWindow ad)) >=? WindowSize ad then
    match dataWindow ad with
    | [] => None
    | oldValue :: rest =>
        Some {| WindowSize := WindowSize ad; Threshold := Threshold ad;
                dataWindow := rest;
                sum := f_sub (sum ad) oldValue;
                sumOfSquares := f_sub (sumOfSquares ad) (f_mul oldValue oldValue) |}
    end
  else Some ad.

(** Lines 49-51. *)
Definition push (ad : AnomalyDetector) (newValue : F) : AnomalyDetector :=
  {| WindowSize := WindowSize ad; Threshold := Threshold ad;
     dataWindow := dataWindow ad ++ [newValue];
     sum := f_add (sum ad) newValue;
     sumOfSquares := f_add (sumOfSquares ad) (f_mul newValue newValue) |}.

(** Lines 53-77: the statistics are taken over the window that already holds
    the new value. *)
Definition evaluate (ad : AnomalyDetector) (newValue : F) : Verdict :=
  let currentSize := Z.of_nat (length (dataWindow ad)) in
  if currentSize <? 2 then mkVerdict false f_zero None
  else
    let mean := f_div (sum ad) (f_of_int currentSize) in
    let variance :=
      f_sub (f_div (sumOfSquares ad) (f_of_int currentSize)) (f_mul mean mean) in
    let variance := if f_lt variance f_zero then f_zero else variance in
    let stdDev := f_sqrt variance in
    if f_eq stdDev f_zero then
      if negb (f_eq newValue mean) then mkVerdict true f_max None
      else mkVerdict false f_zero None
    else
      let z := f_abs (f_div (f_sub newValue mean) stdDev) in
      mkVerdict (f_lt (Threshold ad) z) z None.

Definition ProcessData (ad : AnomalyDetector) (dp : DataPoint)
  : option (AnomalyDetector * Verdict) :=
  let newValue := Value dp in
  match evict ad with
  | None => None
  | Some ad1 =>
      let ad2 := push ad1 newValue in
      Some (ad2, evaluate ad2 newValue)
  end.

(** [GetStats]: count, mean and standard deviation of the window. *)
Definition GetStats (ad : AnomalyDetector) : Z * F * F :=
  let currentSize := Z.of_nat (length (dataWindow ad)) in
  if currentSize =? 0 then (0, f_zero, f_zero)
  else
    let mean := f_div (sum ad) (f_of_int currentSize) in
    let variance :=
      f_sub (f_div (sumOfSquares ad) (f_of_int currentSize)) (f_mul mean mean) in
    let variance := if f_lt variance f_zero then f_zero else variance in
    (currentSize, mean, f_sqrt variance).

(** [Reset]: a new empty window, zero sums, configuration kept. *)
Definition Reset (ad : AnomalyDetector) : AnomalyDetector :=
  {| WindowSize := WindowSize ad; Threshold := Threshold ad;
     dataWindow := []; sum := f_zero; sumOfSquares := f_zero |}.

(** A caller feeding a sequence of data points, collecting the verdicts. *)
Fixpoint ProcessAll (ad : AnomalyDetector) (dps : list DataPoint)
  : option (AnomalyDetector * list Verdict) :=
  match dps with
  | [] => Some (ad, [])
  | dp :: rest =>
      match ProcessData ad dp with
      | None => None
      | Some (ad', v) =>
          match ProcessAll ad' rest with
          | None => None
          | Some (ad'', vs) => Some (ad'', v :: vs)
          end
      end
  end.



(** The last [k] elements of a sequence, in order. *)
Definition mostRecent (k : nat) (l : list F) : list F :=
  skipn (length l - k) l.

End Detector.

Arguments AnomalyDetector F : clear implicits.
Arguments DataPoint F : clear implicits.
Arguments Verdict F : clear implicits.

(** IEEE 754 binary64. *)
#[global] Instance binary64 : Float64 float := {|
  f_zero := PrimFloat.zero;
  f_add := PrimFloat.add;
  f_sub := PrimFloat.sub;
  f_mul := PrimFloat.mul;
  f_div := PrimFloat.div;
  f_sqrt := PrimFloat.sqrt;
  f_abs := PrimFloat.abs;
  f_lt := PrimFloat.ltb;
  f_eq := PrimFloat.eqb;
  f_of_int := fun n => PrimFloat.of_uint63 (Uint63.of_Z n);
  f_max := 0x1.fffffffffffffp+1023%float
|}.

(** Data points carrying the given values, stamped 1, 2, 3, ... *)
Definition stamped {F : Type} (vs : list F) : list (DataPoint F) :=
  map (fun p => mkDataPoint (Z.of_nat (fst p)) (snd p))
      (combine (seq 1 (length vs)) vs).

(** The (isAnomaly, zScore) pairs a fresh detector returns for the values. *)
Definition verdicts {F : Type} `{Float64 F} (windowSize : Z) (threshold : F)
    (vs : list F) : option (list (bool * F)) :=
  match ProcessAll (fresh windowSize threshold) (stamped vs) with
  | Some (_, out) => Some (map (fun v => (isAnomaly v, zScore v)) out)
  | None => None
  end.

(** The float64 nearest to 0.1. *)
Definition c01 : float := 0x1.999999999999ap-4%float.


End Anomaly.

(** ** internal/redteam/redteam.go *)

Module RedTeam.

Definition FaultType : Type := string.

Definition FaultLatency : FaultType := "latency"%string.
Definition FaultMemoryPressure : FaultType := "memory_pressure"%string.
Definition FaultCPUStress : FaultType := "cpu_stress"%string.
Definition FaultNetworkDelay : FaultType := "network_delay"%string.
Definition FaultValidationFail : FaultType := "validation_fail"%string.
Definition FaultProcessingFail : FaultType := "processing_fail"%string.

(** [Duration] is a [time.Duration], nanoseconds.  Of [Parameters] only
    float64 entries are ever read (the latency multiplier). *)
Record FaultConfig : Type := mkFaultConfig {
  Type_ : FaultType;
  Probability : float;
  Duration : Z;
  Parameters : gmap string float;
  Enabled : bool
}.

(** [*rand.Rand]: the stream the seed determines and how far it was read.
    [rand.Float64] returns the next draw, a value in [0.0, 1.0). *)
Record Rand : Type := mkRand {
  source : nat -> float;
  pos : nat
}.

Definition Float64 (r : Rand) : float * Rand :=
  (source r (pos r), {| source := source r; pos := S (pos r) |}).

(** A [time.Time] is its reading in nanoseconds.  The map of configurations
    holds pointers, each reachable through the map only, so an update through
    the pointer is an update of the entry. *)
Record RedTeam : Type := mkRedTeam {
  faultConfigs : gmap FaultType FaultConfig;
  activeFaults : gmap FaultType Z;
  rand : Rand
}.

Definition NewRedTeam (seeded : nat -> float) : RedTeam :=
  {| faultConfigs := ∅; activeFaults := ∅;
     rand := {| source := seeded; pos := 0 |} |}.

Definition setEnabled (b : bool) (c : FaultConfig) : FaultConfig :=
  {| Type_ := Type_ c; Probability := Probability c; Duration := Duration c;
     Parameters := Parameters c; Enabled := b |}.

Definition ConfigureFault (rt : RedTeam) (config : FaultConfig) : RedTeam :=
  let config := setEnabled true config in
  {| faultConfigs := <[Type_ config := config]> (faultConfigs rt);
     activeFaults := activeFaults rt;
     rand := rand rt |}.

Definition EnableFault (rt : RedTeam) (faultType : FaultType) : RedTeam :=
  match faultConfigs rt !! faultType with
  | Some config =>
      {| faultConfigs := <[faultType := setEnabled true config]> (faultConfigs rt);
         activeFaults := activeFaults rt;
         rand := rand rt |}
  | None => rt
  end.

Definition DisableFault (rt : RedTeam) (faultType : FaultType) : RedTeam :=
  match faultConfigs rt !! faultType with
  | Some config =>
      {| faultConfigs := <[faultType := setEnabled false config]> (faultConfigs rt);
         activeFaults := delete faultType (activeFaults rt);
         rand := rand rt |}
  | None => rt
  end.

(** [now] is the clock at the call: [time.Since(activeTime)] is
    [now - activeTime], and the activation records the same instant. *)
Definition ShouldInjectFault (rt : RedTeam) (faultType : FaultType) (now : Z)
  : RedTeam * bool :=
  match faultConfigs rt !! faultType with
  | None => (rt, false)
  | Some config =>
      if negb (Enabled config) then (rt, false)
      else
        let withinDuration :=
          match activeFaults rt !! faultType with
          | Some activeTime => now - activeTime <? Duration config
          | None => false
          end in
        if withinDuration then (rt, true)
        else
          (* Roll dice for fault injection *)
          let (draw, rand') := Float64 (rand rt) in
          if PrimFloat.ltb draw (Probability config) then
            ({| faultConfigs := faultConfigs rt;
                activeFaults := <[faultType := now]> (activeFaults rt);
                rand := rand' |}, true)
          else
            ({| faultConfigs := faultConfigs rt;
                activeFaults := activeFaults rt;
                rand := rand' |}, false)
  end.

(** Successive calls for one fault kind at the given clock readings. *)
Fixpoint ShouldInjectAll (rt : RedTeam) (faultType : FaultType) (times : list Z)
  : RedTeam * list bool :=
  match times with
  | [] => (rt, [])
  | now :: rest =>
      let (rt1, b) := ShouldInjectFault rt faultType now in
      let (rt2, bs) := ShouldInjectAll rt1 faultType rest in
      (rt2, b :: bs)
  end.

(** The test of [GetActiveFaults] on one entry of the active table: the kind
    is configured, enabled, and its duration has not elapsed at [now]. *)
Definition stillActive (rt : RedTeam) (now : Z) (faultType : FaultType)
    (startTime : Z) : bool :=
  match faultConfigs rt !! faultType with
  | Some config => Enabled config && (now - startTime <? Duration config)
  | None => false
  end.

(** [GetActiveFaults]: the entries of the active table that pass the test. *)
Definition GetActiveFaults (rt : RedTeam) (now : Z) : gmap FaultType Z :=
  filter (fun kv : FaultType * Z => stillActive rt now kv.1 kv.2 = true)
         (activeFaults rt).

(** The test of [CleanupExpiredFaults] on one entry: the kind is configured
    and [now.Sub(startTime) >= config.Duration]. *)
Definition expired (rt : RedTeam) (now : Z) (faultType : FaultType)
    (startTime : Z) : bool :=
  match faultConfigs rt !! faultType with
  | Some config => Duration config <=? now - startTime
  | None => false
  end.

(** [CleanupExpiredFaults]: the expired entries are deleted. *)
Definition CleanupExpiredFaults (rt : RedTeam) (now : Z) : RedTeam :=
  {| faultConfigs := faultConfigs rt;
     activeFaults :=
       filter (fun kv : FaultType * Z => expired rt now kv.1 kv.2 = false)
              (activeFaults rt);
     rand := rand rt |}.

(** [InjectValidationFault] and [InjectProcessingFault]: the error, if any. *)
Definition InjectValidationFault (rt : RedTeam) (now : Z) : RedTeam * option string :=
  let (rt', inject) := ShouldInjectFault rt FaultValidationFail now in
  (rt', if inject then Some "redteam: simulated validation failure"%string else None).

Definition InjectProcessingFault (rt : RedTeam) (now : Z) : RedTeam * option string :=
  let (rt', inject) := ShouldInjectFault rt FaultProcessingFail now in
  (rt', if inject then Some "redteam: simulated processing failure"%string else None).

(** A latency fault that is certain to fire, lasting 100ns, handed over with
    [Enabled] unset; a random source whose every draw is 0.5; and the
    injector configured with that fault. *)
Definition certainLatency : FaultConfig :=
  {| Type_ := FaultLatency; Probability := 1%float; Duration := 100;
     Parameters := ∅; Enabled := false |}.

Definition halves : nat -> float := fun _ => 0.5%float.

Definition armed : RedTeam := ConfigureFault (NewRedTeam halves) certainLatency.

End RedTeam.

(** ** internal/blueteam/blueteam.go *)

Module BlueTeam.

Local Open Scope string_scope.

Definition HealingStrategy : Type := string.

Definition StrategyResetDetector : HealingStrategy := "reset_detector".
Definition StrategyCircuitBreaker : HealingStrategy := "circuit_breaker".
Definition StrategyFallbackMode : HealingStrategy := "fallback_mode".
Definition StrategyResourceCleanup : HealingStrategy := "resource_cleanup".
Definition StrategyConfigReload : HealingStrategy := "config_reload".

Definition IssueType : Type := string.

Definition IssueHighLatency : IssueType := "high_latency".
Definition IssueHighErrorRate : IssueType := "high_error_rate".
Definition IssueResourceExhaustion : IssueType := "resource_exhaustion".
Definition IssueComplianceFailure : IssueType := "compliance_failure".
Definition IssueFaultInjection : IssueType := "fault_injection".

Record HealingAction : Type := mkHealingAction {
  ID : string;
  Type_ : IssueType;
  Strategy : HealingStrategy;
  Description : string;
  Timestamp : Z;
  Status : string;
  Success : bool;
  Error : string
}.

Record BlueTeam : Type := mkBlueTeam {
  healingActions : list HealingAction;
  maxActions : Z;
  healingEnabled : bool;
  monitorInterval : Z
}.

Record Config : Type := mkConfig {
  MaxActions : Z;
  MonitorInterval : Z;
  HealingEnabled : bool
}.

Definition minute : Z := 60 * 1000000000.

Definition NewBlueTeam (config : Config) : BlueTeam :=
  let maxActions := if (MaxActions config <=? 0)%Z then 1000%Z else MaxActions config in
  let monitorInterval :=
    if (MonitorInterval config <=? 0)%Z then (minute * 5)%Z else MonitorInterval config in
  {| healingActions := [];
     maxActions := maxActions;
     healingEnabled := HealingEnabled config;
     monitorInterval := monitorInterval |}.

Definition DefaultConfig : Config :=
  {| MaxActions := 1000; MonitorInterval := (minute * 5)%Z; HealingEnabled := true |}.

Definition setDescription (d : string) (a : HealingAction) : HealingAction :=
  {| ID := ID a; Type_ := Type_ a; Strategy := Strategy a; Description := d;
     Timestamp := Timestamp a; Status := Status a; Success := Success a;
     Error := Error a |}.

Definition setError (e : string) (a : HealingAction) : HealingAction :=
  {| ID := ID a; Type_ := Type_ a; Strategy := Strategy a;
     Description := Description a; Timestamp := Timestamp a; Status := Status a;
     Success := Success a; Error := e |}.

Definition setOutcome (st : string) (ok : bool) (a : HealingAction) : HealingAction :=
  {| ID := ID a; Type_ := Type_ a; Strategy := Strategy a;
     Description := Description a; Timestamp := Timestamp a; Status := st;
     Success := ok; Error := Error a |}.

(** The five simulated strategies append a note to the description and
    report success. *)
Definition executeDetectorReset (a : HealingAction) : HealingAction * bool :=
  (setDescription (Description a +:+ " - Detector reset completed") a, true).
Definition executeCircuitBreaker (a : HealingAction) : HealingAction * bool :=
  (setDescription (Description a +:+ " - Circuit breaker activated") a, true).
Definition executeFallbackMode (a : HealingAction) : HealingAction * bool :=
  (setDescription (Description a +:+ " - Fallback mode activated") a, true).
Definition executeResourceCleanup (a : HealingAction) : HealingAction * bool :=
  (setDescription (Description a +:+ " - Resource cleanup completed") a, true).
Definition executeConfigReload (a : HealingAction) : HealingAction * bool :=
  (setDescription (Description a +:+ " - Configuration reloaded") a, true).

(** The action is passed by pointer: the updated record is returned next to
    the boolean result. *)
Definition executeHealingStrategy (strategy : HealingStrategy) (action : HealingAction)
  : HealingAction * bool :=
  if String.eqb strategy StrategyResetDetector then executeDetectorReset action
  else if String.eqb strategy StrategyCircuitBreaker then executeCircuitBreaker action
  else if String.eqb strategy StrategyFallbackMode then executeFallbackMode action
  else if String.eqb strategy StrategyResourceCleanup then executeResourceCleanup action
  else if String.eqb strategy StrategyConfigReload then executeConfigReload action
  else (setError ("Unknown healing strategy: " +:+ strategy) action, false).

(** [now] is the clock ([time.Now()]) at the call. *)
Definition initiateHealing (bt : BlueTeam) (issueType : IssueType)
    (strategy : HealingStrategy) (description : string) (now : Z)
  : BlueTeam * HealingAction :=
  let action :=
    {| ID := "heal_" +:+ fmt_d now +:+ "_" +:+ issueType;
       Type_ := issueType;
       Strategy := strategy;
       Description := description;
       Timestamp := now;
       Status := "initiated";
       Success := false;
       Error := EmptyString |} in
  let (action, success) := executeHealingStrategy strategy action in
  let action :=
    if success then setOutcome "completed" true action
    else setError "Healing strategy execution failed" (setOutcome "failed" false action) in
  let appended := (healingActions bt ++ [action])%list in
  let kept :=
    if (Z.of_nat (length appended) >? maxActions bt)%Z then skipn 1 appended
    else appended in
  ({| healingActions := kept;
      maxActions := maxActions bt;
      healingEnabled := healingEnabled bt;
      monitorInterval := monitorInterval bt |}, action).

Definition HealOnDemand (bt : BlueTeam) (issueType : IssueType)
    (strategy : HealingStrategy) (now : Z) : BlueTeam * HealingAction :=
  let description :=
    "On-demand healing for " +:+ issueType +:+ " using " +:+ strategy +:+ " strategy" in
  initiateHealing bt issueType strategy description now.

(** The zero value of [HealingAction]. *)
Definition zeroAction : HealingAction :=
  {| ID := EmptyString; Type_ := EmptyString; Strategy := EmptyString;
     Description := EmptyString; Timestamp := 0; Status := EmptyString;
     Success := false; Error := EmptyString |}.

(** [GetHealingHistory]; [None] is a run-time panic. *)
Definition GetHealingHistory (bt : BlueTeam) (limit : Z) : option (list HealingAction) :=
  let len := Z.of_nat (length (healingActions bt)) in
  let limit := if (limit <=? 0)%Z || (limit >? len)%Z then len else limit in
  let start := (len - limit)%Z in
  let start := if (start <? 0)%Z then 0%Z else start in
  match Slice.make zeroAction limit, Slice.from (healingActions bt) start with
  | Some result, Some recent => Some (Slice.copy result recent)
  | _, _ => None
  end.

(** The four checks of [performHealthCheck], each of which heals without
    looking at anything; [t1], ..., [t4] are the clock readings. *)
Definition checkLatencyIssues (bt : BlueTeam) (now : Z) : BlueTeam * HealingAction :=
  initiateHealing bt IssueHighLatency StrategyCircuitBreaker
    "High latency detected, applying circuit breaker pattern" now.

Definition checkErrorRateIssues (bt : BlueTeam) (now : Z) : BlueTeam * HealingAction :=
  initiateHealing bt IssueHighErrorRate StrategyFallbackMode
    "High error rate detected, switching to fallback mode" now.

Definition checkResourceIssues (bt : BlueTeam) (now : Z) : BlueTeam * HealingAction :=
  initiateHealing bt IssueResourceExhaustion StrategyResourceCleanup
    "Resource exhaustion detected, performing cleanup" now.

Definition checkComplianceIssues (bt : BlueTeam) (now : Z) : BlueTeam * HealingAction :=
  initiateHealing bt IssueComplianceFailure StrategyConfigReload
    "Compliance failure detected, reloading configuration" now.

Definition performHealthCheck (bt : BlueTeam) (t1 t2 t3 t4 : Z) : BlueTeam :=
  let bt := fst (checkLatencyIssues bt t1) in
  let bt := fst (checkErrorRateIssues bt t2) in
  let bt := fst (checkResourceIssues bt t3) in
  fst (checkComplianceIssues bt t4).

(** [GetHealingStats], without the formatted monitor interval.  The counters
    are bounded by the length of the history. *)
Record HealingStats : Type := mkHealingStats {
  total_actions : Z;
  healing_enabled : bool;
  successful_heals : Z;
  failed_heals : Z;
  strategies_used : gmap string Z;
  issues_addressed : gmap string Z
}.

(** [m[k]++] on a [map[string]int]. *)
Definition increment (k : string) (m : gmap string Z) : gmap string Z :=
  <[k := (default 0 (m !! k) + 1)%Z]> m.

Definition countAction (stats : HealingStats) (action : HealingAction) : HealingStats :=
  {| total_actions := total_actions stats;
     healing_enabled := healing_enabled stats;
     successful_heals :=
       if Success action then (successful_heals stats + 1)%Z else successful_heals stats;
     failed_heals :=
       if Success action then failed_heals stats else (failed_heals stats + 1)%Z;
     strategies_used := increment (Strategy action) (strategies_used stats);
     issues_addressed := increment (Type_ action) (issues_addressed stats) |}.

Definition GetHealingStats (bt : BlueTeam) : HealingStats :=
  fold_left countAction (healingActions bt)
    {| total_actions := Z.of_nat (length (healingActions bt));
       healing_enabled := healingEnabled bt;
       successful_heals := 0; failed_heals := 0;
       strategies_used := ∅; issues_addressed := ∅ |}.


(** How many actions of a history used the strategy. *)
Definition usesOf (strategy : HealingStrategy) (actions : list HealingAction) : Z :=
  Z.of_nat (length (List.filter (fun a => String.eqb (Strategy a) strategy) actions)).

(** On-demand healing called once at each of the given clock readings. *)
Definition HealRepeatedly (bt : BlueTeam) (issueType : IssueType)
    (strategy : HealingStrategy) (times : list Z) : BlueTeam :=
  fold_left (fun b now => fst (HealOnDemand b issueType strategy now)) times bt.

(** A healer with room for 20 actions, and the same after 20 on-demand
    healings at the instants 1, ..., 20. *)
Definition smallTeam : BlueTeam :=
  NewBlueTeam {| MaxActions := 20; MonitorInterval := 0; HealingEnabled := true |}.

Definition fullTeam : BlueTeam :=
  HealRepeatedly smallTeam IssueHighLatency StrategyCircuitBreaker
    (map Z.of_nat (seq 1 20)).

End BlueTeam.

(** ** internal/hypervisor: the SBOH metrics *)

Module Hypervisor.

(** The bubble sort of [calculateP95Latency], over any element type with the
    comparison [gt a b] standing for [a > b]. *)
Section BubbleSort.
Context {A : Type} (gt : A -> A -> bool).

(** A [for] loop over the given indices whose body may panic. *)
Fixpoint forEach {St : Type} (body : St -> nat -> option St) (indices : list nat)
    (s : St) : option St :=
  match indices with
  | [] => Some s
  | i :: rest =>
      match body s i with
      | Some s' => forEach body rest s'
      | None => None
      end
  end.

(** The body of the inner loop: [if samples[j] > samples[j+1]] the two cells
    are exchanged.  Reading a cell out of range is a panic. *)
Definition compareSwap (samples : list A) (j : nat) : option (list A) :=
  match samples !! j, samples !! S j with
  | Some a, Some b =>
      Some (if gt a b then <[S j := a]> (<[j := b]> samples) else samples)
  | _, _ => None
  end.

(** [for j := 0; j < bound; j++]. *)
Definition innerLoop (bound : nat) (samples : list A) : option (list A) :=
  forEach compareSwap (seq 0 bound) samples.

(** [for i := 0; i < len(samples); i++], the inner loop bounded by
    [len(samples)-1-i]. *)
Definition bubbleSort (samples : list A) : option (list A) :=
  let n := length samples in
  forEach (fun s i => innerLoop (n - 1 - i) s) (seq 0 n) samples.

(** The inner loop as a recursion on the list: after [j] iterations the head
    of the remaining list is the value the loop has carried to cell [j]. *)
Fixpoint pass (k : nat) (samples : list A) : list A :=
  match k, samples with
  | S k', a :: b :: rest =>
      if gt a b then b :: pass k' (a :: rest) else a :: pass k' (b :: rest)
  | _, _ => samples
  end.

(** The two loops in that form. *)
Definition passes (samples : list A) : list A :=
  let n := length samples in
  fold_left (fun s i => pass (n - 1 - i) s) (seq 0 n) samples.


End BubbleSort.

(** [int(x)] for a finite float64: truncation toward zero.  The float is
    [m * 2^e] with the sign [s]; a negative [e] shifts the fraction bits
    out. *)
Definition truncate (x : float) : Z :=
  match Prim2SF x with
  | S754_finite s m e =>
      let v := Z.shiftl (Z.pos m) e in
      if s then - v else v
  | _ => 0
  end.

(** The float64 nearest to the constant 0.95. *)
Definition c095 : float := 0x1.e666666666666p-1%float.

(** [int(float64(len(samples)) * 0.95)]. *)
Definition p95Index (len : nat) : nat :=
  Z.to_nat (truncate (PrimFloat.mul (PrimFloat.of_uint63 (Uint63.of_Z (Z.of_nat len))) c095)).

Definition floatGt (a b : float) : bool := PrimFloat.ltb b a.

(** [None] is a run-time panic: a cell read out of range. *)
Definition calculateP95Latency (latencySamples : list float) : option float :=
  if Nat.eqb (length latencySamples) 0 then Some 0%float
  else
    match bubbleSort floatGt latencySamples with
    | None => None
    | Some samples =>
        let idx := p95Index (length samples) in
        let idx :=
          if (length samples <=? idx)%nat then (length samples - 1)%nat else idx in
        samples !! idx
    end.

(** [float64(n)] for [0 <= n < 2^63]. *)
Definition ofInt (n : Z) : float := PrimFloat.of_uint63 (Uint63.of_Z n).

Definition countSuccessfulDecisions (decisionOutcomes : list bool) : Z :=
  fold_left (fun (count : Z) (success : bool) => if success then count + 1 else count)
            decisionOutcomes 0.

Definition calculateSuccessRate (decisionOutcomes : list bool) : float :=
  if Nat.eqb (length decisionOutcomes) 0 then 100%float
  else
    let successful := countSuccessfulDecisions decisionOutcomes in
    PrimFloat.mul
      (PrimFloat.div (ofInt successful) (ofInt (Z.of_nat (length decisionOutcomes))))
      100%float.

(** The number of entries with [revenue == 0.0]. *)
Definition zeroRevenues (revenueTracking : list float) : Z :=
  fold_left (fun (zeroCount : Z) (revenue : float) =>
               if PrimFloat.eqb revenue 0%float then zeroCount + 1 else zeroCount)
            revenueTracking 0.

Definition calculateMonetizationAccuracy (revenueTracking : list float) : float :=
  if Nat.eqb (length revenueTracking) 0 then 100%float
  else
    let zeroCount := zeroRevenues revenueTracking in
    if zeroCount =? 0 then 100%float
    else
      PrimFloat.mul
        (PrimFloat.div (ofInt (Z.of_nat (length revenueTracking) - zeroCount))
                       (ofInt (Z.of_nat (length revenueTracking))))
        100%float.

Definition sumRevenue (revenueTracking : list float) : float :=
  fold_left PrimFloat.add revenueTracking 0%float.

(** The metrics, without the two clock readings (time stamp and uptime). *)
Record SBOHMetrics : Type := mkSBOHMetrics {
  P95LatencyMS : float;
  DecisionSuccessRate : float;
  MonetizationAccuracy : float;
  TotalDecisions : Z;
  SuccessfulDecisions : Z;
  TotalRevenue : float
}.

Record Hypervisor : Type := mkHypervisor {
  metrics : SBOHMetrics;
  latencySamples : list float;
  decisionOutcomes : list bool;
  revenueTracking : list float;
  maxSamples : Z
}.

(** The metrics start as the zero value of the struct. *)
Definition NewHypervisor (configMaxSamples : Z) : Hypervisor :=
  let maxSamples := if configMaxSamples <=? 0 then 10000 else configMaxSamples in
  {| metrics := mkSBOHMetrics 0%float 0%float 0%float 0 0 0%float;
     latencySamples := []; decisionOutcomes := []; revenueTracking := [];
     maxSamples := maxSamples |}.

(** [updateMetrics] on the three buffers. *)
Definition updateMetrics (ls : list float) (ds : list bool) (rs : list float)
  : option SBOHMetrics :=
  match calculateP95Latency ls with
  | None => None
  | Some p95 =>
      Some {| P95LatencyMS := p95;
              DecisionSuccessRate := calculateSuccessRate ds;
              MonetizationAccuracy := calculateMonetizationAccuracy rs;
              TotalDecisions := Z.of_nat (length ds);
              SuccessfulDecisions := countSuccessfulDecisions ds;
              TotalRevenue := sumRevenue rs |}
  end.

Definition RecordDecision (h : Hypervisor) (latencyMS : float) (success : bool)
    (revenue : float) : option Hypervisor :=
  let ls := latencySamples h ++ [latencyMS] in
  let ds := decisionOutcomes h ++ [success] in
  let rs := revenueTracking h ++ [revenue] in
  let over := Z.of_nat (length ls) >? maxSamples h in
  let ls := if over then skipn 1 ls else ls in
  let ds := if over then skipn 1 ds else ds in
  let rs := if over then skipn 1 rs else rs in
  match updateMetrics ls ds rs with
  | None => None
  | Some m =>
      Some {| metrics := m; latencySamples := ls; decisionOutcomes := ds;
              revenueTracking := rs; maxSamples := maxSamples h |}
  end.

(** [P95LatencyMS <= 50.0]. *)
Definition IsAxiomA2Compliant (h : Hypervisor) : bool :=
  PrimFloat.leb (P95LatencyMS (metrics h)) 50%float.

(** The float64 nearest to 99.999, and [MonetizationAccuracy >= 99.999]. *)
Definition c99999 : float := 0x1.8ffef9db22d0ep+6%float.

Definition IsAxiomA4Compliant (h : Hypervisor) : bool :=
  PrimFloat.leb c99999 (MonetizationAccuracy (metrics h)).

(** The float64 nearest to 0.001, the price [ObserveExecution] records. *)
Definition defaultPrice : float := 0x1.0624dd2f1a9fcp-10%float.

(** [ObserveExecution] once the wrapped function has returned: [latencyNS]
    is the measured duration and [failed] tells whether it returned an
    error. *)
Definition ObserveExecution (h : Hypervisor) (latencyNS : Z) (failed : bool)
  : option Hypervisor :=
  let latencyMS := PrimFloat.div (ofInt latencyNS) 1000000%float in
  let success := negb failed in
  RecordDecision h latencyMS success defaultPrice.

(** Decisions recorded one after the other. *)
Fixpoint RecordAll (h : Hypervisor) (decisions : list (float * bool * float))
  : option Hypervisor :=
  match decisions with
  | [] => Some h
  | (latencyMS, success, revenue) :: rest =>
      match RecordDecision h latencyMS success revenue with
      | None => None
      | Some h' => RecordAll h' rest
      end
  end.

Fixpoint ObserveAll (h : Hypervisor) (runs : list (Z * bool)) : option Hypervisor :=
  match runs with
  | [] => Some h
  | (latencyNS, failed) :: rest =>
      match ObserveExecution h latencyNS failed with
      | None => None
      | Some h' => ObserveAll h' rest
      end
  end.

(** [floor(0.95 * n)] in exact arithmetic. *)
Definition floor95 (n : nat) : nat := Z.to_nat (Z.of_nat n * 95 / 100).








End Hypervisor.

(** ** internal/audit/audit.go *)

Module Audit.

Local Open Scope string_scope.

Definition EventType : Type := string.
Definition EventDecision : EventType := "decision".
Definition EventSecurity : EventType := "security".

Definition ComplianceStatus : Type := string.
Definition StatusCompliant : ComplianceStatus := "compliant".
Definition StatusNonCompliant : ComplianceStatus := "non_compliant".
Definition StatusWarning : ComplianceStatus := "warning".
Definition StatusError : ComplianceStatus := "error".

Record AuditEvent : Type := mkAuditEvent {
  ID : string;
  Timestamp : Z;
  Type_ : EventType;
  Status : ComplianceStatus;
  Message : string;
  Details : gmap string string;
  SourceIP : string;
  UserAgent : string;
  RequestID : string;
  ProcessingTimeNS : Z;
  Component : string;
  Protocol : string
}.

(** [written] is what the encoder has appended to the output file. *)
Record Auditor : Type := mkAuditor {
  events : list AuditEvent;
  written : list AuditEvent;
  maxEvents : Z;
  eventCounter : Z
}.

Record Config : Type := mkConfig {
  OutputFile : string;
  MaxEvents : Z;
  EnableConsole : bool
}.

Definition assignID (id : string) (ts : Z) (e : AuditEvent) : AuditEvent :=
  {| ID := id; Timestamp := ts; Type_ := Type_ e; Status := Status e;
     Message := Message e; Details := Details e; SourceIP := SourceIP e;
     UserAgent := UserAgent e; RequestID := RequestID e;
     ProcessingTimeNS := ProcessingTimeNS e; Component := Component e;
     Protocol := Protocol e |}.

(** The slice expression [s[low:]]: out of range unless [0 <= low <= len(s)]. *)
Definition sliceFrom {A : Type} (s : list A) (low : Z) : option (list A) :=
  if (low <? 0)%Z || (Z.of_nat (length s) <? low)%Z then None
  else Some (skipn (Z.to_nat low) s).

(** [now] is the clock at the call.  [None] is a run-time panic. *)
Definition LogEvent (a : Auditor) (event : AuditEvent) (now : Z) : option Auditor :=
  let counter := wrap64 (eventCounter a + 1) in
  let event :=
    assignID ("evt_" +:+ fmt_d now +:+ "_" +:+ fmt_d counter) now event in
  let stored := (events a ++ [event])%list in
  let kept :=
    if (Z.of_nat (length stored) >? maxEvents a)%Z then
      (* Remove oldest 10% of events *)
      let removeCount := (maxEvents a ÷ 10)%Z in
      let removeCount := if (removeCount <? 100)%Z then 100%Z else removeCount in
      sliceFrom stored removeCount
    else Some stored in
  match kept with
  | None => None
  | Some kept =>
      Some {| events := kept;
              written := (written a ++ [event])%list;
              maxEvents := maxEvents a;
              eventCounter := counter |}
  end.

Definition startupEvent (config : Config) (maxEvents : Z) : AuditEvent :=
  {| ID := EmptyString; Timestamp := 0; Type_ := EventSecurity;
     Status := StatusCompliant; Message := "Audit system initialized";
     Details := {[ "max_events" := fmt_d maxEvents;
                   "output_file" := OutputFile config;
                   "console_log" := if EnableConsole config then "true" else "false" ]};
     SourceIP := EmptyString; UserAgent := EmptyString; RequestID := EmptyString;
     ProcessingTimeNS := 0; Component := "auditor"; Protocol := EmptyString |}.

(** [NewAuditor] when the output file opens; it logs the start-up event. *)
Definition NewAuditor (config : Config) (now : Z) : option Auditor :=
  let maxEvents := if (MaxEvents config <=? 0)%Z then 100000%Z else MaxEvents config in
  LogEvent {| events := []; written := []; maxEvents := maxEvents; eventCounter := 0 |}
           (startupEvent config maxEvents) now.

(** A caller logging a sequence of events at the given clock readings. *)
Fixpoint LogAll (a : Auditor) (evs : list (AuditEvent * Z)) : option Auditor :=
  match evs with
  | [] => Some a
  | (e, now) :: rest =>
      match LogEvent a e now with
      | None => None
      | Some a' => LogAll a' rest
      end
  end.

(** An event as [LogDecision] passes it to [LogEvent]. *)
Definition decisionEvent (message : string) : AuditEvent :=
  {| ID := EmptyString; Timestamp := 0; Type_ := EventDecision;
     Status := StatusCompliant; Message := message; Details := ∅;
     SourceIP := EmptyString; UserAgent := EmptyString; RequestID := EmptyString;
     ProcessingTimeNS := 0; Component := "anomaly_detector";
     Protocol := EmptyString |}.

(** The number of events one eviction removes. *)
Definition removeCount (maxEvents : Z) : Z :=
  if (maxEvents ÷ 10 <? 100)%Z then 100%Z else (maxEvents ÷ 10)%Z.

(** An auditor created with room for 50 events, and the same after 49
    decisions logged at the instants 1, ..., 49. *)
Definition smallConfig : Config :=
  {| OutputFile := "audit.jsonl"; MaxEvents := 50; EnableConsole := false |}.

Definition fiftyLogged : option Auditor :=
  match NewAuditor smallConfig 0 with
  | Some a =>
      LogAll a (map (fun i => (decisionEvent "Decision processed", Z.of_nat i))
                    (seq 1 49))
  | None => None
  end.

(** The zero value of the struct, as [make] fills a slice with. *)
Definition zeroEvent : AuditEvent :=
  {| ID := EmptyString; Timestamp := 0; Type_ := EmptyString; Status := EmptyString;
     Message := EmptyString; Details := ∅; SourceIP := EmptyString;
     UserAgent := EmptyString; RequestID := EmptyString; ProcessingTimeNS := 0;
     Component := EmptyString; Protocol := EmptyString |}.

(** [GetEvents]: [None] is a run-time panic. *)
Definition GetEvents (a : Auditor) (limit : Z) : option (list AuditEvent) :=
  let len := Z.of_nat (length (events a)) in
  let limit := if (limit <=? 0)%Z || (limit >? len)%Z then len else limit in
  let start := (len - limit)%Z in
  let start := if (start <? 0)%Z then 0%Z else start in
  match Slice.make zeroEvent limit, Slice.from (events a) start with
  | Some result, Some recent => Some (Slice.copy result recent)
  | _, _ => None
  end.

(** The report of [GetComplianceReport], a map with these seven keys. *)
Record ComplianceReport : Type := mkComplianceReport {
  total_events : Z;
  compliant_events : Z;
  non_compliant_events : Z;
  warning_events : Z;
  error_events : Z;
  protocols : gmap string Z;
  components : gmap string Z
}.

(** [m[key]++] on a [map[string]int]. *)
Definition bump (key : string) (m : gmap string Z) : gmap string Z :=
  <[key := (default 0%Z (m !! key) + 1)%Z]> m.

(** The loop body of [GetComplianceReport]; [event.Timestamp.Before(since)]
    skips the event. *)
Definition countEvent (since : Z) (report : ComplianceReport) (event : AuditEvent)
  : ComplianceReport :=
  if (Timestamp event <? since)%Z then report
  else
    let status := Status event in
    let compliant :=
      if String.eqb status StatusCompliant
      then (compliant_events report + 1)%Z else compliant_events report in
    let nonCompliant :=
      if negb (String.eqb status StatusCompliant)
         && String.eqb status StatusNonCompliant
      then (non_compliant_events report + 1)%Z else non_compliant_events report in
    let warning :=
      if negb (String.eqb status StatusCompliant)
         && negb (String.eqb status StatusNonCompliant)
         && String.eqb status StatusWarning
      then (warning_events report + 1)%Z else warning_events report in
    let error :=
      if negb (String.eqb status StatusCompliant)
         && negb (String.eqb status StatusNonCompliant)
         && negb (String.eqb status StatusWarning)
         && String.eqb status StatusError
      then (error_events report + 1)%Z else error_events report in
    {| total_events := total_events report;
       compliant_events := compliant;
       non_compliant_events := nonCompliant;
       warning_events := warning;
       error_events := error;
       protocols :=
         if negb (String.eqb (Protocol event) EmptyString)
         then bump (Protocol event) (protocols report) else protocols report;
       components := bump (Component event) (components report) |}.

Definition GetComplianceReport (a : Auditor) (since : Z) : ComplianceReport :=
  fold_left (countEvent since) (events a)
    {| total_events := Z.of_nat (length (events a));
       compliant_events := 0; non_compliant_events := 0;
       warning_events := 0; error_events := 0;
       protocols := ∅; components := ∅ |}.

(** The events of the store that a report since [since] looks at. *)
Definition considered (since : Z) (evs : list AuditEvent) : list AuditEvent :=
  List.filter (fun event => negb (Timestamp event <? since)%Z) evs.

Definition withStatus (status : ComplianceStatus) (evs : list AuditEvent) : Z :=
  Z.of_nat (length (List.filter (fun event => String.eqb (Status event) status) evs)).

Definition withComponent (component : string) (evs : list AuditEvent) : Z :=
  Z.of_nat (length (List.filter (fun event => String.eqb (Component event) component) evs)).

(** An event as [LogEvent] stores it. *)
Definition stampedEvent (counter now : Z) (event : AuditEvent) : AuditEvent :=
  assignID ("evt_" +:+ fmt_d now +:+ "_" +:+ fmt_d counter) now event.

End Audit.

(** ** monetization: the Proof-of-Value tracker *)

Module Monetization.
Import Anomaly.

Section Tracker.
Context {F : Type} `{Float64 F}.

Record DecisionRecord : Type := mkDecisionRecord {
  DecisionID : string;
  RecordedAt : Z;
  ProcessingNS : Z;
  ZScore : F;
  RecordedValue : F;
  IsAnomaly : bool
}.

Record MonetizationTracker : Type := mkTracker {
  records : list DecisionRecord;
  basePrice : F;
  complexityMultiplier : F;
  outputFile : string
}.

Definition NewTracker (configBasePrice configMultiplier : F) (configOutputFile : string)
  : MonetizationTracker :=
  {| records := []; basePrice := configBasePrice;
     complexityMultiplier := configMultiplier; outputFile := configOutputFile |}.

(** The record is appended; [IsAnomaly] is [zScore > 0].  The log line and
    the write to the output file leave the tracker as it is. *)
Definition RecordDecision (mt : MonetizationTracker) (decisionID : string) (value : F)
    (processingNS : Z) (zScore : F) (now : Z) : MonetizationTracker :=
  let record :=
    {| DecisionID := decisionID; RecordedAt := now; ProcessingNS := processingNS;
       ZScore := zScore; RecordedValue := value; IsAnomaly := f_lt f_zero zScore |} in
  {| records := records mt ++ [record]; basePrice := basePrice mt;
     complexityMultiplier := complexityMultiplier mt; outputFile := outputFile mt |}.

(** The constants 1.0, 1e9 and 10.0 are whole numbers that float64 holds
    exactly. *)
Definition CalculatePrice (mt : MonetizationTracker) (processingNS : Z) (zScore : F) : F :=
  let latencyFactor :=
    f_add (f_of_int 1)
          (f_mul (f_div (f_of_int processingNS) (f_of_int 1000000000))
                 (complexityMultiplier mt)) in
  let complexityFactor :=
    f_add (f_of_int 1)
          (f_mul (f_div zScore (f_of_int 10)) (complexityMultiplier mt)) in
  f_mul (f_mul (basePrice mt) latencyFactor) complexityFactor.

Definition GetTotalValue (mt : MonetizationTracker) : F :=
  fold_left (fun total record =>
               f_add total (CalculatePrice mt (ProcessingNS record) (ZScore record)))
            (records mt) f_zero.

(** The sum is an [int64] and wraps around; the division truncates towards
    zero. *)
Definition totalLatency (rs : list DecisionRecord) : Z :=
  fold_left (fun total record => wrap64 (total + ProcessingNS record)) rs 0.

Definition GetAverageLatency (mt : MonetizationTracker) : Z :=
  if Nat.eqb (length (records mt)) 0 then 0
  else wrap64 (totalLatency (records mt) ÷ Z.of_nat (length (records mt))).

Definition countAnomalies (rs : list DecisionRecord) : Z :=
  fold_left (fun (anomalies : Z) record =>
               if IsAnomaly record then anomalies + 1 else anomalies) rs 0.

Definition GetAnomalyRate (mt : MonetizationTracker) : F :=
  if Nat.eqb (length (records mt)) 0 then f_zero
  else
    f_mul (f_div (f_of_int (countAnomalies (records mt)))
                 (f_of_int (Z.of_nat (length (records mt)))))
          (f_of_int 100).

End Tracker.

Arguments DecisionRecord F : clear implicits.
Arguments MonetizationTracker F : clear implicits.

End Monetization.

(** ** ratelimit: the token bucket *)

Module RateLimit.

Definition maxInt64 : Z := 2 ^ 63 - 1.
Definition minInt64 : Z := - 2 ^ 63.

(** [t.Sub(u)] on clock readings in nanoseconds: the difference, saturated to
    the range of a [Duration]. *)
Definition Sub (t u : Z) : Z :=
  let d := t - u in
  if d >? maxInt64 then maxInt64 else if d <? minInt64 then minInt64 else d.

(** [float64(n)] for [|n| < 2^63]. *)
Definition floatOfInt64 (n : Z) : float :=
  if n <? 0 then PrimFloat.opp (Hypervisor.ofInt (- n)) else Hypervisor.ofInt n.

(** [Duration.Seconds]: whole seconds plus the fraction, in float64. *)
Definition Seconds (d : Z) : float :=
  let sec := d ÷ 1000000000 in
  let nsec := Z.rem d 1000000000 in
  PrimFloat.add (floatOfInt64 sec)
                (PrimFloat.div (floatOfInt64 nsec) 1000000000%float).

(** [int64(elapsed.Seconds())]. *)
Definition wholeSeconds (elapsed : Z) : Z := Hypervisor.truncate (Seconds elapsed).

Record TokenBucket : Type := mkTokenBucket {
  capacity : Z;
  tokens : Z;
  refillRate : Z;
  lastRefill : Z
}.

Definition NewTokenBucket (capacity refillRate now : Z) : TokenBucket :=
  {| capacity := capacity; tokens := capacity; refillRate := refillRate;
     lastRefill := now |}.

Definition min (a b : Z) : Z := if a <? b then a else b.

Definition refill (tb : TokenBucket) (now : Z) : TokenBucket :=
  let elapsed := Sub now (lastRefill tb) in
  let tokensToAdd := wrap64 (wholeSeconds elapsed * refillRate tb) in
  if tokensToAdd >? 0 then
    {| capacity := capacity tb;
       tokens := min (capacity tb) (wrap64 (tokens tb + tokensToAdd));
       refillRate := refillRate tb;
       lastRefill := now |}
  else tb.

Definition Allow (tb : TokenBucket) (now : Z) : TokenBucket * bool :=
  let tb := refill tb now in
  if tokens tb >? 0 then
    ({| capacity := capacity tb; tokens := wrap64 (tokens tb - 1);
        refillRate := refillRate tb; lastRefill := lastRefill tb |}, true)
  else (tb, false).

Definition GetTokens (tb : TokenBucket) (now : Z) : TokenBucket * Z :=
  let tb := refill tb now in (tb, tokens tb).

(** The bucket of [NewRateLimiter]. *)
Definition NewRateLimiter (requestsPerSecond burstSize now : Z) : TokenBucket :=
  let burstSize := if burstSize <=? 0 then requestsPerSecond else burstSize in
  NewTokenBucket burstSize requestsPerSecond now.

(** Requests arriving at the given clock readings, with their answers. *)
Fixpoint AllowAll (tb : TokenBucket) (times : list Z) : TokenBucket * list bool :=
  match times with
  | [] => (tb, [])
  | now :: rest =>
      let (tb1, allowed) := Allow tb now in
      let (tb2, answers) := AllowAll tb1 rest in
      (tb2, allowed :: answers)
  end.

End RateLimit.

(** * Properties *)

(** ** The detector's window *)

Section WindowFacts.
Import Anomaly.
Context {F : Type} `{Float64 F}.

Lemma mostRecent_all (k : nat) (l : list F) :
  (length l <= k)%nat -> mostRecent k l = l.
Proof.
  intros Hle. unfold mostRecent.
  replace (length l - k)%nat with 0%nat by lia. reflexivity.
Qed.

Lemma mostRecent_length (k : nat) (l : list F) :
  length (mostRecent k l) = Nat.min (length l) k.
Proof. unfold mostRecent. rewrite length_skipn. lia. Qed.

Lemma mostRecent_app (k : nat) (l r : list F) :
  mostRecent k (mostRecent k l ++ r) = mostRecent k (l ++ r).
Proof.
  destruct (Nat.le_gt_cases (length l) k) as [Hle | Hgt].
  - rewrite (mostRecent_all k l Hle). reflexivity.
  - unfold mostRecent at 1 3.
    rewrite !length_app, mostRecent_length.
    unfold mostRecent.
    replace (skipn (length l - k) l ++ r)
      with (skipn (length l - k) (l ++ r)).
    + rewrite skipn_skipn. f_equal. lia.
    + rewrite skipn_app.
      replace (length l - k - length l)%nat with 0%nat by lia. reflexivity.
Qed.

(** One call keeps the configuration, cannot panic when the window size is
    positive, and leaves the most recent [WindowSize] values in arrival
    order. *)
Lemma ProcessData_window (ad : AnomalyDetector F) (dp : DataPoint F) :
  1 <= WindowSize ad ->
  Z.of_nat (length (dataWindow ad)) <= WindowSize ad ->
  exists ad' v,
    ProcessData ad dp = Some (ad', v) /\
    WindowSize ad' = WindowSize ad /\
    Threshold ad' = Threshold ad /\
    Z.of_nat (length (dataWindow ad')) <= WindowSize ad /\
    dataWindow ad' =
      mostRecent (Z.to_nat (WindowSize ad)) (dataWindow ad ++ [Value dp]).
Proof.
  intros Hw Hlen. unfold ProcessData, evict.
  destruct (Z.of_nat (length (dataWindow ad)) >=? WindowSize ad) eqn:Hfull.
  - apply Z.geb_le in Hfull.
    destruct (dataWindow ad) as [| oldValue rest] eqn:Hwin.
    + simpl in Hfull. lia.
    + eexists _, _. split; [reflexivity |]. simpl.
      repeat split; try reflexivity.
      * simpl in Hlen, Hfull. rewrite length_app. simpl. lia.
      * unfold mostRecent. simpl length in *. rewrite length_app. simpl length.
        replace (S (length rest + 1) - Z.to_nat (WindowSize ad))%nat with 1%nat by lia.
        reflexivity.
  - rewrite Z.geb_leb in Hfull. apply Z.leb_gt in Hfull.
    eexists _, _. split; [reflexivity |]. simpl.
    repeat split; try reflexivity.
    + rewrite length_app. simpl. lia.
    + rewrite mostRecent_all; [reflexivity |].
      rewrite length_app. simpl. lia.
Qed.

Lemma ProcessAll_window (dps : list (DataPoint F)) :
  forall ad : AnomalyDetector F,
  1 <= WindowSize ad ->
  Z.of_nat (length (dataWindow ad)) <= WindowSize ad ->
  exists ad' vs,
    ProcessAll ad dps = Some (ad', vs) /\
    length vs = length dps /\
    WindowSize ad' = WindowSize ad /\
    dataWindow ad' =
      mostRecent (Z.to_nat (WindowSize ad)) (dataWindow ad ++ map Value dps).
Proof.
  induction dps as [| dp rest IH]; intros ad Hw Hlen.
  - exists ad, []. simpl. rewrite app_nil_r.
    rewrite mostRecent_all by lia. auto.
  - destruct (ProcessData_window ad dp Hw Hlen)
      as (ad1 & v & Hstep & HW & _ & Hlen1 & Hwin1).
    destruct (IH ad1) as (ad2 & vs & Hrun & Hvs & HW2 & Hwin2); [lia | lia |].
    exists ad2, (v :: vs). simpl. rewrite Hstep, Hrun.
    repeat split.
    + simpl. lia.
    + congruence.
    + rewrite Hwin2, HW, Hwin1, mostRecent_app, <- app_assoc. reflexivity.
Qed.

(** [Reset] gives back the struct [NewDetector] built. *)
Lemma Reset_fresh (ad : AnomalyDetector F) :
  Reset ad = fresh (WindowSize ad) (Threshold ad).
Proof. reflexivity. Qed.

Lemma ProcessAll_values (dps1 : list (DataPoint F)) :
  forall (dps2 : list (DataPoint F)) (ad : AnomalyDetector F),
  map Value dps1 = map Value dps2 ->
  ProcessAll ad dps1 = ProcessAll ad dps2.
Proof.
  induction dps1 as [| p1 r1 IH]; intros [| p2 r2] ad Heq;
    simpl in Heq; try discriminate; [reflexivity |].
  injection Heq as Hv Hr. simpl.
  unfold ProcessData. rewrite Hv.
  destruct (evict ad) as [ad1 |]; [| reflexivity].
  rewrite (IH r2 _ Hr). reflexivity.
Qed.

End WindowFacts.

(** ** The running sums while nothing is evicted *)

Section RunningSums.
Import Anomaly.
Context {F : Type} `{Float64 F}.




End RunningSums.

(** ** Claims about the detector *)

Section DetectorClaims.
Import Anomaly.




(** C3.  Two fresh detectors built with the same window size and threshold,
    fed the same values in the same order, return the same verdicts at every
    step and end in the same state; the time stamps play no part.  With the
    [binary64] instance equal results are equal floats. *)
Theorem ProcessData_deterministic {F : Type} `{Float64 F}
    (w : Z) (t : F) (d1 d2 : AnomalyDetector F) (dps1 dps2 : list (DataPoint F)) :
  NewDetector w t = Some d1 ->
  NewDetector w t = Some d2 ->
  map Value dps1 = map Value dps2 ->
  ProcessAll d1 dps1 = ProcessAll d2 dps2.
Proof.
  intros H1 H2 Hv. rewrite H1 in H2. injection H2 as <-.
  apply ProcessAll_values. exact Hv.
Qed.

Lemma ProcessData_deterministic_witness :
  ProcessAll (fresh 2 2%float)
    [mkDataPoint 1 5%float; mkDataPoint 2 7%float; mkDataPoint 3 6%float] =
  ProcessAll (fresh 2 2%float)
    [mkDataPoint 10 5%float; mkDataPoint 20 7%float; mkDataPoint 30 6%float].
Proof.
  apply (ProcessData_deterministic 2 2%float); reflexivity.
Defined.

(** C9.  With a window size of at least 1 no sequence of calls panics; with a
    window size of 0 or less the first call on the empty window takes the
    eviction branch and indexes [dataWindow[0]], which panics. *)
Theorem ProcessData_total_iff_window_positive {F : Type} `{Float64 F}
    (w : Z) (t : F) :
  (1 <= w -> forall dps, ProcessAll (fresh w t) dps <> None) /\
  (w <= 0 -> forall dp, ProcessData (fresh w t) dp = None).
Proof.
  split.
  - intros Hw dps.
    destruct (ProcessAll_window dps (fresh w t)) as (ad & vs & Hrun & _);
      [exact Hw | simpl; lia |].
    rewrite Hrun. discriminate.
  - intros Hw dp. unfold ProcessData, evict. simpl.
    change (Z.of_nat 0) with 0.
    destruct (0 >=? w) eqn:Hge; [reflexivity |].
    rewrite Z.geb_leb in Hge. apply Z.leb_gt in Hge. lia.
Qed.

Lemma ProcessData_total_iff_window_positive_witness :
  (forall dps, ProcessAll (fresh 3 2%float) dps <> None) /\
  (forall dp, ProcessData (fresh 0 2%float) dp = None).
Proof.
  split.
  - apply (ProcessData_total_iff_window_positive 3 2%float). lia.
  - apply (ProcessData_total_iff_window_positive 0 2%float). lia.
Defined.

(** [NewDetector] itself panics on a negative window size and builds the
    empty struct otherwise. *)
Lemma NewDetector_spec {F : Type} `{Float64 F} (w : Z) (t : F) :
  NewDetector w t = if w <? 0 then None else Some (fresh w t).
Proof. reflexivity. Qed.

End DetectorClaims.

(** ** Claims about the fault injector *)

Section RedTeamClaims.
Import RedTeam.

(** C10.  Whatever [Enabled] the caller passes, [ConfigureFault] stores the
    definition under its kind with [Enabled] set: the fault is armed from
    then on, the other fields are the caller's. *)
Theorem ConfigureFault_always_enabled (rt : RedTeam) (config : FaultConfig) :
  exists stored,
    faultConfigs (ConfigureFault rt config) !! Type_ config = Some stored /\
    Enabled stored = true /\
    Type_ stored = Type_ config /\
    Probability stored = Probability config /\
    Duration stored = Duration config /\
    Parameters stored = Parameters config.
Proof.
  exists (setEnabled true config). unfold ConfigureFault. simpl.
  rewrite lookup_insert_eq. repeat split.
Qed.

(** A fault configured with [enabled=false] fires on the first successful
    roll. *)
Lemma ConfigureFault_disabled_fires (rt : RedTeam) (config : FaultConfig) (now : Z) :
  Enabled config = false ->
  activeFaults rt !! Type_ config = None ->
  PrimFloat.ltb (source (rand rt) (pos (rand rt))) (Probability config) = true ->
  snd (ShouldInjectFault (ConfigureFault rt config) (Type_ config) now) = true.
Proof.
  intros _ Hidle Hroll. unfold ShouldInjectFault, ConfigureFault. simpl.
  rewrite lookup_insert_eq. simpl. rewrite Hidle. simpl.
  rewrite Hroll. reflexivity.
Qed.

(** While the fault is active and its duration has not elapsed the call
    answers "fault present" and changes nothing, the random source
    included. *)
Lemma ShouldInjectFault_active (rt : RedTeam) (ft : FaultType)
    (config : FaultConfig) (since now : Z) :
  faultConfigs rt !! ft = Some config ->
  Enabled config = true ->
  activeFaults rt !! ft = Some since ->
  now - since < Duration config ->
  ShouldInjectFault rt ft now = (rt, true).
Proof.
  intros Hc He Ha Hlt. unfold ShouldInjectFault.
  rewrite Hc, He, Ha. simpl.
  destruct (now - since <? Duration config) eqn:E; [reflexivity |].
  apply Z.ltb_ge in E. lia.
Qed.

(** A roll happens exactly when the fault is idle or its duration has
    elapsed; a successful roll records the call's instant. *)
Lemma ShouldInjectFault_roll (rt : RedTeam) (ft : FaultType)
    (config : FaultConfig) (now : Z) :
  faultConfigs rt !! ft = Some config ->
  Enabled config = true ->
  (activeFaults rt !! ft = None \/
   exists since, activeFaults rt !! ft = Some since /\ Duration config <= now - since) ->
  PrimFloat.ltb (source (rand rt) (pos (rand rt))) (Probability config) = true ->
  ShouldInjectFault rt ft now =
    ({| faultConfigs := faultConfigs rt;
        activeFaults := <[ft := now]> (activeFaults rt);
        rand := {| source := source (rand rt); pos := S (pos (rand rt)) |} |}, true).
Proof.
  intros Hc He Hidle Hroll. unfold ShouldInjectFault.
  rewrite Hc, He. simpl.
  assert (Hno : match activeFaults rt !! ft with
                | Some activeTime => now - activeTime <? Duration config
                | None => false
                end = false).
  { destruct Hidle as [-> | (since & -> & Hge)]; [reflexivity |].
    apply Z.ltb_ge. exact Hge. }
  rewrite Hno. unfold Float64. rewrite Hroll. reflexivity.
Qed.

Lemma ShouldInjectAll_active (rt : RedTeam) (ft : FaultType)
    (config : FaultConfig) (since : Z) (times : list Z) :
  faultConfigs rt !! ft = Some config ->
  Enabled config = true ->
  activeFaults rt !! ft = Some since ->
  Forall (fun now => now - since < Duration config) times ->
  ShouldInjectAll rt ft times = (rt, repeat true (length times)).
Proof.
  intros Hc He Ha Hall. induction Hall as [| now rest Hnow _ IH]; [reflexivity |].
  simpl. rewrite (ShouldInjectFault_active rt ft config since now Hc He Ha Hnow).
  rewrite IH. reflexivity.
Qed.

(** C4, as the code has it.  For an enabled kind with probability 1.0 that is
    not active, the first call (at [t0]) returns true and activates the fault
    at [t0]; any run of later calls made before [Duration] has elapsed since
    [t0] returns true every time and leaves the whole state, the position of
    the random source included, untouched; a call made once [Duration] has
    elapsed rolls again, and since every draw is below 1.0 it returns true
    and starts a new active period at that call. *)
Theorem ShouldInjectFault_certain (rt : RedTeam) (ft : FaultType)
    (config : FaultConfig) (t0 : Z) :
  faultConfigs rt !! ft = Some config ->
  Enabled config = true ->
  Probability config = 1%float ->
  activeFaults rt !! ft = None ->
  (forall i, PrimFloat.ltb (source (rand rt) i) 1%float = true) ->
  let rt1 := fst (ShouldInjectFault rt ft t0) in
  snd (ShouldInjectFault rt ft t0) = true /\
  activeFaults rt1 !! ft = Some t0 /\
  (forall times,
     Forall (fun now => now - t0 < Duration config) times ->
     ShouldInjectAll rt1 ft times = (rt1, repeat true (length times))) /\
  (forall now,
     Duration config <= now - t0 ->
     snd (ShouldInjectFault rt1 ft now) = true /\
     activeFaults (fst (ShouldInjectFault rt1 ft now)) !! ft = Some now /\
     pos (rand (fst (ShouldInjectFault rt1 ft now))) = S (pos (rand rt1))).
Proof.
  intros Hc He Hp Hidle Hdraw rt1.
  assert (Hfirst := ShouldInjectFault_roll rt ft config t0 Hc He (or_introl Hidle)).
  rewrite Hp in Hfirst. specialize (Hfirst (Hdraw _)).
  subst rt1. rewrite Hfirst. simpl.
  split; [reflexivity |]. split; [apply lookup_insert_eq |]. split.
  - intros times Hall.
    apply (ShouldInjectAll_active _ ft config t0); simpl; auto.
    apply lookup_insert_eq.
  - intros now Hexp.
    match goal with |- context [ShouldInjectFault ?r ft now] =>
      assert (Hagain := ShouldInjectFault_roll r ft config now) end.
    simpl in Hagain. rewrite Hp in Hagain.
    rewrite Hagain; simpl; auto.
    + split; [reflexivity |]. split; [apply lookup_insert_eq | reflexivity].
    + right. exists t0. split; [apply lookup_insert_eq | exact Hexp].
Qed.

Lemma ShouldInjectFault_certain_witness :
  snd (ShouldInjectFault armed FaultLatency 0) = true /\
  ShouldInjectAll (fst (ShouldInjectFault armed FaultLatency 0)) FaultLatency [1; 50; 99] =
    (fst (ShouldInjectFault armed FaultLatency 0), [true; true; true]) /\
  snd (ShouldInjectFault (fst (ShouldInjectFault armed FaultLatency 0)) FaultLatency 100) = true.
Proof.
  destruct (ShouldInjectFault_certain armed FaultLatency
              (setEnabled true certainLatency) 0) as (Hfirst & _ & Hwithin & Hafter).
  - apply lookup_insert_eq.
  - reflexivity.
  - reflexivity.
  - apply lookup_empty.
  - intros i. reflexivity.
  - split; [exact Hfirst |]. split.
    + apply (Hwithin [1; 50; 99]). repeat constructor.
    + apply (Hafter 100). unfold certainLatency. simpl. lia.
Defined.

(** C4 as stated fails: with probability 1.0 the call made when the duration
    has just elapsed does not return false. *)
Lemma expired_certain_fault_fires_again :
  Enabled (setEnabled true certainLatency) = true /\
  Probability certainLatency = 1%float /\
  snd (ShouldInjectFault armed FaultLatency 0) = true /\
  Duration certainLatency <= 100 - 0 /\
  snd (ShouldInjectFault (fst (ShouldInjectFault armed FaultLatency 0)) FaultLatency 100)
    <> false.
Proof.
  split; [reflexivity |]. split; [reflexivity |].
  split; [vm_compute; reflexivity |].
  split; [unfold certainLatency; simpl; lia |].
  vm_compute. discriminate.
Qed.

End RedTeamClaims.

(** ** Claims about the healer *)

Section BlueTeamClaims.
Import BlueTeam.
Local Open Scope string_scope.

(** C5, as the code has it.  An append that takes the history past
    [maxActions] drops exactly one entry, the oldest, so a full history keeps
    its length; below capacity nothing is dropped. *)
Theorem healing_history_evicts_single_oldest (bt : BlueTeam) (issueType : IssueType)
    (strategy : HealingStrategy) (description : string) (now : Z) :
  let bt' := fst (initiateHealing bt issueType strategy description now) in
  let action := snd (initiateHealing bt issueType strategy description now) in
  maxActions bt' = maxActions bt /\
  (Z.of_nat (length (healingActions bt)) < maxActions bt ->
     healingActions bt' = (healingActions bt ++ [action])%list) /\
  (maxActions bt <= Z.of_nat (length (healingActions bt)) ->
     healingActions bt' = skipn 1 (healingActions bt ++ [action])%list /\
     length (healingActions bt') = length (healingActions bt)).
Proof.
  unfold initiateHealing.
  destruct (executeHealingStrategy strategy _) as [a ok]. simpl.
  set (final := if ok then _ else _).
  split; [reflexivity |].
  rewrite length_app. simpl length.
  destruct (Z.of_nat (length (healingActions bt) + 1) >? maxActions bt)%Z eqn:Hover.
  - apply Z.gtb_lt in Hover. split; [lia |]. intros _. split; [reflexivity |].
    rewrite length_skipn, length_app. simpl. lia.
  - rewrite Z.gtb_ltb in Hover. apply Z.ltb_ge in Hover.
    split; [reflexivity | lia].
Qed.

Lemma healing_history_evicts_single_oldest_witness :
  length (healingActions fullTeam) = 20%nat /\
  length (healingActions
            (fst (initiateHealing fullTeam IssueHighLatency StrategyCircuitBreaker
                    "High latency detected, applying circuit breaker pattern" 21)))
    = 20%nat.
Proof.
  split; [reflexivity |].
  destruct (healing_history_evicts_single_oldest fullTeam IssueHighLatency
              StrategyCircuitBreaker
              "High latency detected, applying circuit breaker pattern" 21)
    as (_ & _ & Hfull).
  destruct Hfull as [_ Hlen]; [vm_compute; discriminate |].
  rewrite Hlen. reflexivity.
Defined.

(** C5 as stated fails: with room for 20 actions, 10% is 2 entries, and the
    append to the full history drops only the entry made at instant 1. *)
Lemma healing_history_not_bulk_evicted :
  let appended := (healingActions fullTeam ++
      [snd (HealOnDemand fullTeam IssueHighLatency StrategyCircuitBreaker 21)])%list in
  let after :=
    healingActions (fst (HealOnDemand fullTeam IssueHighLatency StrategyCircuitBreaker 21)) in
  Z.of_nat (length appended) > maxActions fullTeam /\
  Z.to_nat (maxActions fullTeam / 10) = 2%nat /\
  after <> skipn (Z.to_nat (maxActions fullTeam / 10)) appended /\
  after = skipn 1 appended /\
  map ID (firstn 2 after) = ["heal_2_high_latency"; "heal_3_high_latency"].
Proof.
  split; [vm_compute; reflexivity |].
  split; [reflexivity |].
  split; [| split; vm_compute; reflexivity].
  intros Heq. apply (f_equal (@length _)) in Heq.
  vm_compute in Heq. discriminate.
Qed.

(** What the dispatch does with a strategy outside the five known kinds. *)
Lemma executeHealingStrategy_unknown (strategy : HealingStrategy) (a : HealingAction) :
  strategy <> StrategyResetDetector ->
  strategy <> StrategyCircuitBreaker ->
  strategy <> StrategyFallbackMode ->
  strategy <> StrategyResourceCleanup ->
  strategy <> StrategyConfigReload ->
  executeHealingStrategy strategy a =
    (setError ("Unknown healing strategy: " +:+ strategy) a, false).
Proof.
  intros H1 H2 H3 H4 H5. unfold executeHealingStrategy.
  apply String.eqb_neq in H1, H2, H3, H4, H5.
  rewrite H1, H2, H3, H4, H5. reflexivity.
Qed.

(** The record [HealOnDemand] returns for an unknown strategy: failure is in
    its fields, and the error text is the generic one written by
    [initiateHealing] over the dispatch's report. *)
Lemma HealOnDemand_unknown (bt : BlueTeam) (issueType : IssueType)
    (strategy : HealingStrategy) (now : Z) :
  strategy <> StrategyResetDetector ->
  strategy <> StrategyCircuitBreaker ->
  strategy <> StrategyFallbackMode ->
  strategy <> StrategyResourceCleanup ->
  strategy <> StrategyConfigReload ->
  let action := snd (HealOnDemand bt issueType strategy now) in
  Success action = false /\
  Status action = "failed" /\
  Error action = "Healing strategy execution failed" /\
  Strategy action = strategy /\
  Type_ action = issueType.
Proof.
  intros H1 H2 H3 H4 H5. unfold HealOnDemand, initiateHealing.
  rewrite executeHealingStrategy_unknown by assumption.
  simpl. repeat split.
Qed.

(** C8 at the strategy "bogus".  The dispatch reports the unknown strategy in
    the action's error, and the record handed back to the caller no longer
    carries that report. *)
Theorem unknown_strategy_report_overwritten :
  let pending :=
    {| ID := "heal_7_high_latency"; Type_ := IssueHighLatency; Strategy := "bogus";
       Description := "On-demand healing for high_latency using bogus strategy";
       Timestamp := 7; Status := "initiated"; Success := false;
       Error := EmptyString |} in
  let action := snd (HealOnDemand smallTeam IssueHighLatency "bogus" 7) in
  executeHealingStrategy "bogus" pending =
    (setError "Unknown healing strategy: bogus" pending, false) /\
  Success action = false /\
  Status action = "failed" /\
  Error action = "Healing strategy execution failed" /\
  Error action <> "Unknown healing strategy: bogus".
Proof.
  split; [reflexivity |].
  split; [reflexivity |]. split; [reflexivity |]. split; [reflexivity |].
  vm_compute. discriminate.
Qed.

End BlueTeamClaims.

(** ** The bubble sort sorts *)

Section BubbleSortFacts.
Import Hypervisor.
Context {A : Type} (gt : A -> A -> bool).

(** The values the comparison is used on, and what is assumed of it there. *)
Variable dom : A -> Prop.
Hypothesis gt_asym : forall a b, dom a -> dom b -> gt a b = true -> gt b a = false.
Hypothesis notGt_trans : forall a b c, dom a -> dom b -> dom c ->
  gt a b = false -> gt b c = false -> gt a c = false.



Lemma pass_Permutation (k : nat) : forall l, Permutation (pass gt k l) l.
Proof.
  induction k as [| k IH]; intros l; [destruct l; reflexivity |].
  destruct l as [| a [| b r]]; simpl; try reflexivity.
  destruct (gt a b).
  - rewrite IH. apply perm_swap.
  - rewrite IH. reflexivity.
Qed.

Lemma pass_length (k : nat) (l : list A) : length (pass gt k l) = length l.
Proof. apply Permutation_length, pass_Permutation. Qed.





Lemma outer_loop_Permutation (n : nat) (js : list nat) : forall l : list A,
  Permutation (fold_left (fun s j => pass gt (n - 1 - j) s) js l) l.
Proof.
  induction js as [| j js IH]; intros l; simpl; [reflexivity |].
  rewrite IH. apply pass_Permutation.
Qed.


(** The inner loop on cells [length pre], ..., [length pre + k - 1] of an
    array whose cells from [length pre] on are [s] never reads out of range
    and computes [pass]. *)
Lemma forEach_compareSwap_pass (k : nat) : forall pre s : list A,
  (k < length s)%nat ->
  forEach (compareSwap gt) (seq (length pre) k) (pre ++ s) = Some (pre ++ pass gt k s).
Proof.
  induction k as [| k IH]; intros pre s Hk.
  - destruct s; reflexivity.
  - destruct s as [| a [| b r]]; simpl in Hk; try lia.
    cbn [seq forEach]. unfold compareSwap at 1.
    rewrite (list_lookup_middle pre (b :: r) a (length pre) eq_refl).
    assert (Hb : (pre ++ a :: b :: r) !! S (length pre) = Some b).
    { replace (pre ++ a :: b :: r) with ((pre ++ [a]) ++ b :: r)
        by (rewrite <- app_assoc; reflexivity).
      apply list_lookup_middle. rewrite length_app. simpl. lia. }
    rewrite Hb.
    assert (Hswap : <[S (length pre) := a]> (<[length pre := b]> (pre ++ a :: b :: r))
                    = (pre ++ [b]) ++ a :: r).
    { rewrite (insert_app_r_alt pre (a :: b :: r) (length pre) b) by lia.
      rewrite Nat.sub_diag. simpl.
      rewrite (insert_app_r_alt pre (b :: b :: r) (S (length pre)) a) by lia.
      replace (S (length pre) - length pre)%nat with 1%nat by lia. simpl.
      rewrite <- app_assoc. reflexivity. }
    assert (Hkeep : pre ++ a :: b :: r = (pre ++ [a]) ++ b :: r)
      by (rewrite <- app_assoc; reflexivity).
    simpl pass. destruct (gt a b).
    + rewrite Hswap.
      replace (S (length pre)) with (length (pre ++ [b]))
        by (rewrite length_app; simpl; lia).
      rewrite (IH (pre ++ [b]) (a :: r)) by (simpl; lia).
      rewrite <- app_assoc. reflexivity.
    + rewrite Hkeep.
      replace (S (length pre)) with (length (pre ++ [a]))
        by (rewrite length_app; simpl; lia).
      rewrite (IH (pre ++ [a]) (b :: r)) by (simpl; lia).
      rewrite <- app_assoc. reflexivity.
Qed.

Lemma innerLoop_pass (k : nat) (s : list A) :
  (k < length s)%nat \/ k = 0%nat ->
  innerLoop gt k s = Some (pass gt k s).
Proof.
  intros [Hk | ->].
  - apply (forEach_compareSwap_pass k [] s Hk).
  - destruct s; reflexivity.
Qed.

Lemma outer_loop_passes (n c : nat) : forall (i : nat) (l : list A),
  length l = n ->
  forEach (fun s j => innerLoop gt (n - 1 - j) s) (seq i c) l =
  Some (fold_left (fun s j => pass gt (n - 1 - j) s) (seq i c) l).
Proof.
  induction c as [| c IH]; intros i l Hlen; [reflexivity |].
  cbn [seq forEach fold_left].
  rewrite innerLoop_pass by lia.
  apply IH. rewrite pass_length. exact Hlen.
Qed.

(** The two loops never read out of range and compute [passes]. *)
Lemma bubbleSort_passes (l : list A) : bubbleSort gt l = Some (passes gt l).
Proof. apply outer_loop_passes. reflexivity. Qed.


End BubbleSortFacts.

(** ** Claims about the P95 latency *)

Section HypervisorClaims.
Import Hypervisor.













(** The float64 index is not [floor(0.95 * n)] for every [n]: at
    [n = 2^53 + 1] the conversion to float64 rounds and the index is one
    less. *)
Lemma p95Index_differs_beyond_2_53 :
  p95Index (Z.to_nat (2 ^ 53 + 1)) <> floor95 (Z.to_nat (2 ^ 53 + 1)).
Proof.
  unfold p95Index, floor95.
  rewrite Z2Nat.id by (apply Z.leb_le; vm_compute; reflexivity).
  intros Heq. apply Z2Nat.inj in Heq.
  - vm_compute in Heq. discriminate.
  - apply Z.leb_le. vm_compute. reflexivity.
  - apply Z.leb_le. vm_compute. reflexivity.
Qed.




End HypervisorClaims.

(** ** Claims about the audit ledger *)

Section AuditClaims.
Import Audit.
Local Open Scope string_scope.

Lemma wrap64_small (z : Z) : - 2 ^ 63 <= z < 2 ^ 63 -> wrap64 z = z.
Proof.
  intros Hz. unfold wrap64. rewrite Z.mod_small; lia.
Qed.

(** With room for at least 99 events an append cannot panic: the event gets
    the next counter value in its id and the call's instant as time stamp, is
    stored and written, and an append that takes the store past [maxEvents]
    removes the oldest [max(maxEvents/10, 100)] events at once. *)
Lemma LogEvent_large_capacity (a : Auditor) (event : AuditEvent) (now : Z) :
  99 <= maxEvents a ->
  Z.of_nat (length (events a)) <= maxEvents a ->
  0 <= eventCounter a < 2 ^ 63 - 1 ->
  let stamped :=
    assignID ("evt_" +:+ fmt_d now +:+ "_" +:+ fmt_d (eventCounter a + 1)) now event in
  exists a',
    LogEvent a event now = Some a' /\
    eventCounter a' = eventCounter a + 1 /\
    maxEvents a' = maxEvents a /\
    written a' = (written a ++ [stamped])%list /\
    (Z.of_nat (length (events a)) < maxEvents a ->
       events a' = (events a ++ [stamped])%list) /\
    (Z.of_nat (length (events a)) = maxEvents a ->
       events a' =
         skipn (Z.to_nat (Z.max (maxEvents a / 10) 100)) (events a ++ [stamped])%list).
Proof.
  intros Hcap Hlen Hctr stamped. unfold LogEvent.
  rewrite (wrap64_small (eventCounter a + 1)) by lia.
  fold stamped. rewrite length_app. simpl length.
  destruct (Z.of_nat (length (events a) + 1) >? maxEvents a)%Z eqn:Hover.
  - apply Z.gtb_lt in Hover.
    rewrite Z.quot_div_nonneg by lia.
    assert (Hq : 0 <= maxEvents a / 10 <= maxEvents a).
    { split; [apply Z.div_pos; lia |]. apply Z.div_le_upper_bound; lia. }
    unfold sliceFrom. rewrite length_app. simpl length.
    set (rc := if (maxEvents a / 10 <? 100)%Z then 100%Z else (maxEvents a / 10)%Z).
    assert (Hrc : rc = Z.max (maxEvents a / 10) 100).
    { unfold rc. destruct (maxEvents a / 10 <? 100)%Z eqn:E.
      - apply Z.ltb_lt in E. lia.
      - apply Z.ltb_ge in E. lia. }
    assert (Hin : ((rc <? 0) || (Z.of_nat (length (events a) + 1) <? rc))%Z = false).
    { apply orb_false_intro; [apply Z.ltb_ge | apply Z.ltb_ge]; lia. }
    rewrite Hin. eexists. split; [reflexivity |]. simpl.
    repeat split; try lia.
    intros _. rewrite Hrc. reflexivity.
  - rewrite Z.gtb_ltb in Hover. apply Z.ltb_ge in Hover.
    eexists. split; [reflexivity |]. simpl. repeat split; lia.
Qed.

(** With room for fewer than 99 events the append to a full store panics:
    the slice expression asks for 100 events and the store holds fewer. *)
Lemma LogEvent_small_capacity (a : Auditor) (event : AuditEvent) (now : Z) :
  0 <= maxEvents a < 99 ->
  Z.of_nat (length (events a)) = maxEvents a ->
  LogEvent a event now = None.
Proof.
  intros Hcap Hlen. unfold LogEvent.
  rewrite length_app. simpl length.
  destruct (Z.of_nat (length (events a) + 1) >? maxEvents a)%Z eqn:Hover.
  - rewrite Z.quot_div_nonneg by lia.
    assert (Hq : maxEvents a / 10 < 100) by (apply Z.div_lt_upper_bound; lia).
    apply Z.ltb_lt in Hq. rewrite Hq.
    unfold sliceFrom. rewrite length_app. simpl length.
    assert (Hout : (Z.of_nat (length (events a) + 1) <? 100)%Z = true)
      by (apply Z.ltb_lt; lia).
    rewrite Hout. reflexivity.
  - rewrite Z.gtb_ltb in Hover. apply Z.ltb_ge in Hover. lia.
Qed.

(** C7 at [MaxEvents = 50].  The auditor is created (logging its start-up
    event) and logs 49 decisions; the store then holds 50 events, and the next
    append panics instead of evicting. *)
Theorem LogEvent_eviction_panics_below_99 :
  exists a,
    fiftyLogged = Some a /\
    maxEvents a = 50 /\
    length (events a) = 50%nat /\
    eventCounter a = 50 /\
    removeCount (maxEvents a) = 100 /\
    LogEvent a (decisionEvent "Decision processed") 50 = None.
Proof.
  eexists. split; [vm_compute; reflexivity |].
  split; [reflexivity |]. split; [reflexivity |]. split; [reflexivity |].
  split; [reflexivity |].
  apply LogEvent_small_capacity; simpl; [lia | reflexivity].
Qed.

End AuditClaims.

(** ** The zero-variance branch *)

Section ZeroVarianceClaim.
Import Anomaly.

(** C1 on binary64.  Window size 10, threshold 2.0.  After two values 0.1 a
    third 0.1 is reported anomalous with the maximal z-score: the rounded
    mean differs from 0.1 and the rounded variance is clamped to zero.  After
    two values 5 the value 6 is reported not anomalous with a z-score below
    1.5, and after ten values 5 the value 6 is reported anomalous with a
    z-score below 3.5, not the maximal one: the statistics include the new
    value, so the standard deviation is not zero. *)
Theorem zero_variance_binary64 :
  verdicts 10 2%float [c01; c01; c01] =
    Some [(false, 0%float); (false, 0%float); (true, f_max)] /\
  (exists z,
     verdicts 10 2%float [5%float; 5%float; 6%float] =
       Some [(false, 0%float); (false, 0%float); (false, z)] /\
     PrimFloat.ltb z 1.5%float = true) /\
  (exists z,
     verdicts 10 2%float (repeat 5%float 10 ++ [6%float]) =
       Some (repeat (false, 0%float) 10 ++ [(true, z)]) /\
     PrimFloat.ltb z 3.5%float = true).
Proof.
  split; [vm_compute; reflexivity |].
  split; eexists; (split; [vm_compute; reflexivity | vm_compute; reflexivity]).
Qed.

End ZeroVarianceClaim.

(** * Further properties of the modelled code *)

(** ** The detector: short windows and the statistics *)

Section DetectorShortWindows.
Import Anomaly.
Context {F : Type} `{Float64 F}.

Lemma ProcessData_verdict (ad ad' : AnomalyDetector F) (dp : DataPoint F) (v : Verdict F) :
  ProcessData ad dp = Some (ad', v) -> v = evaluate ad' (Value dp).
Proof.
  unfold ProcessData. destruct (evict ad); [| discriminate].
  intros Heq. injection Heq as <- <-. reflexivity.
Qed.

Lemma evaluate_short (ad : AnomalyDetector F) (x : F) :
  (length (dataWindow ad) < 2)%nat -> evaluate ad x = mkVerdict false f_zero None.
Proof.
  intros Hlen. unfold evaluate.
  assert (H2 : (Z.of_nat (length (dataWindow ad)) <? 2) = true) by (apply Z.ltb_lt; lia).
  rewrite H2. reflexivity.
Qed.

Lemma ProcessAll_window_one (t : F) (dps : list (DataPoint F)) :
  forall ad : AnomalyDetector F,
  WindowSize ad = 1 ->
  (length (dataWindow ad) <= 1)%nat ->
  exists ad' vs,
    ProcessAll ad dps = Some (ad', vs) /\
    Forall (eq (mkVerdict false f_zero None)) vs.
Proof.
  induction dps as [| dp rest IH]; intros ad HW Hlen.
  - exists ad, []. split; [reflexivity | constructor].
  - destruct (ProcessData_window ad dp) as (ad1 & v & Hstep & HW1 & _ & Hlen1 & _);
      [rewrite HW; lia | rewrite HW; lia |].
    rewrite HW in Hlen1.
    destruct (IH ad1) as (ad2 & vs & Hrun & Hall); [congruence | lia |].
    exists ad2, (v :: vs). simpl. rewrite Hstep, Hrun. split; [reflexivity |].
    constructor; [| exact Hall].
    rewrite (ProcessData_verdict ad ad1 dp v Hstep).
    symmetry. apply evaluate_short. lia.
Qed.

(** X1.  The first value a fresh detector is given is never anomalous and
    has z-score 0, and a detector whose window size is 1 answers (false, 0)
    to every value of every sequence: its window never holds two values. *)
Theorem short_window_never_anomalous (t : F) :
  (forall w dp, 1 <= w ->
     exists ad, ProcessData (fresh w t) dp = Some (ad, mkVerdict false f_zero None)) /\
  (forall dps, exists ad vs,
     ProcessAll (fresh 1 t) dps = Some (ad, vs) /\
     Forall (eq (mkVerdict false f_zero None)) vs).
Proof.
  split.
  - intros w dp Hw.
    destruct (ProcessData_window (fresh w t) dp) as (ad & v & Hstep & _ & _ & _ & Hwin);
      [exact Hw | simpl; lia |].
    exists ad. rewrite Hstep. f_equal. f_equal.
    rewrite (ProcessData_verdict _ _ _ _ Hstep).
    apply evaluate_short. rewrite Hwin, mostRecent_length, length_app.
    cbn [fresh dataWindow length]. lia.
  - intros dps. apply (ProcessAll_window_one t dps (fresh 1 t)); [reflexivity | simpl; lia].
Qed.

(** X2.  After [n] values on a fresh detector of window size [w >= 1],
    [GetStats] counts [min n w] values, and after [Reset] it returns
    (0, 0, 0). *)
Theorem GetStats_count (w : Z) (t : F) (dps : list (DataPoint F)) :
  1 <= w ->
  exists ad vs,
    ProcessAll (fresh w t) dps = Some (ad, vs) /\
    fst (fst (GetStats ad)) = Z.min (Z.of_nat (length dps)) w /\
    GetStats (Reset ad) = (0, f_zero, f_zero).
Proof.
  intros Hw.
  destruct (ProcessAll_window dps (fresh w t)) as (ad & vs & Hrun & _ & _ & Hwin);
    [exact Hw | simpl; lia |].
  exists ad, vs. split; [exact Hrun |]. split; [| reflexivity].
  assert (Hlen : length (dataWindow ad) = Nat.min (length dps) (Z.to_nat w)).
  { rewrite Hwin, mostRecent_length. simpl. rewrite length_map. reflexivity. }
  unfold GetStats. rewrite Hlen.
  destruct (Z.of_nat (Nat.min (length dps) (Z.to_nat w)) =? 0) eqn:E; simpl.
  - apply Z.eqb_eq in E. lia.
  - lia.
Qed.

End DetectorShortWindows.

Lemma short_window_never_anomalous_witness :
  exists ad,
    Anomaly.ProcessData (Anomaly.fresh 10 2%float) (Anomaly.mkDataPoint 1 5%float) =
    Some (ad, Anomaly.mkVerdict false 0%float None).
Proof.
  exact (proj1 (short_window_never_anomalous 2%float) 10
           (Anomaly.mkDataPoint 1 5%float) ltac:(lia)).
Defined.

Lemma GetStats_count_witness :
  exists ad vs,
    Anomaly.ProcessAll (Anomaly.fresh 2 2%float)
      (Anomaly.stamped [5%float; 7%float; 6%float]) = Some (ad, vs) /\
    fst (fst (Anomaly.GetStats ad)) = 2 /\
    Anomaly.GetStats (Anomaly.Reset ad) = (0, 0%float, 0%float).
Proof.
  exact (GetStats_count 2 2%float (Anomaly.stamped [5%float; 7%float; 6%float])
           ltac:(lia)).
Defined.

(** ** The fault injector: the active table *)

Section RedTeamTable.
Import RedTeam.

Lemma GetActiveFaults_lookup (rt : RedTeam) (now : Z) (ft : FaultType) (since : Z) :
  GetActiveFaults rt now !! ft = Some since <->
  activeFaults rt !! ft = Some since /\
  exists config,
    faultConfigs rt !! ft = Some config /\
    Enabled config = true /\
    now - since < Duration config.
Proof.
  unfold GetActiveFaults. rewrite map_lookup_filter_Some. unfold stillActive. simpl.
  split.
  - intros [Ha Hs]. split; [exact Ha |].
    destruct (faultConfigs rt !! ft) as [config |]; [| discriminate].
    apply andb_prop in Hs as [He Hd]. apply Z.ltb_lt in Hd. eauto.
  - intros [Ha (config & Hc & He & Hd)]. split; [exact Ha |].
    rewrite Hc, He. apply Z.ltb_lt in Hd. rewrite Hd. reflexivity.
Qed.

(** X6.  [GetActiveFaults] lists a kind exactly when [ShouldInjectFault]
    reports that kind without rolling, that is, answers true and leaves the
    injector (random source included) as it was. *)
Theorem GetActiveFaults_iff_reported (rt : RedTeam) (now : Z) (ft : FaultType) :
  is_Some (GetActiveFaults rt now !! ft) <-> ShouldInjectFault rt ft now = (rt, true).
Proof.
  split.
  - intros [since Hlisted].
    apply GetActiveFaults_lookup in Hlisted as [Ha (config & Hc & He & Hd)].
    exact (ShouldInjectFault_active rt ft config since now Hc He Ha Hd).
  - unfold ShouldInjectFault.
    destruct (faultConfigs rt !! ft) as [config |] eqn:Hc; [| discriminate].
    destruct (Enabled config) eqn:He; simpl; [| discriminate].
    destruct (activeFaults rt !! ft) as [since |] eqn:Ha.
    + destruct (now - since <? Duration config) eqn:Hd.
      * intros _. exists since. apply GetActiveFaults_lookup.
        apply Z.ltb_lt in Hd. eauto.
      * unfold Float64.
        destruct (PrimFloat.ltb _ _); intros Heq; injection Heq as Heq;
          apply (f_equal (fun r => pos (rand r))) in Heq; simpl in Heq; lia.
    + unfold Float64.
      destruct (PrimFloat.ltb _ _); intros Heq; injection Heq as Heq;
        try discriminate;
        apply (f_equal (fun r => pos (rand r))) in Heq; simpl in Heq; lia.
Qed.

Lemma CleanupExpiredFaults_lookup (rt : RedTeam) (now : Z) (ft : FaultType) :
  activeFaults (CleanupExpiredFaults rt now) !! ft =
  match activeFaults rt !! ft with
  | Some since => if expired rt now ft since then None else Some since
  | None => None
  end.
Proof.
  unfold CleanupExpiredFaults. simpl. rewrite map_lookup_filter.
  destruct (activeFaults rt !! ft) as [since |]; simpl; [| reflexivity].
  destruct (expired rt now ft since); case_guard; simpl; congruence.
Qed.

(** Whether a call at [now'] finds the kind active and within its duration. *)
Lemma within_after_cleanup (rt : RedTeam) (now now' : Z) (ft : FaultType)
    (config : FaultConfig) :
  now <= now' ->
  faultConfigs rt !! ft = Some config ->
  match activeFaults (CleanupExpiredFaults rt now) !! ft with
  | Some activeTime => now' - activeTime <? Duration config
  | None => false
  end =
  match activeFaults rt !! ft with
  | Some activeTime => now' - activeTime <? Duration config
  | None => false
  end.
Proof.
  intros Hle Hc. rewrite CleanupExpiredFaults_lookup.
  destruct (activeFaults rt !! ft) as [since |]; [| reflexivity].
  unfold expired. rewrite Hc.
  destruct (Duration config <=? now - since) eqn:Hexp; [| reflexivity].
  apply Z.leb_le in Hexp. symmetry. apply Z.ltb_ge. lia.
Qed.

(** X7.  The periodic sweep cannot be observed through the injector's
    queries: at any instant not before the sweep, [ShouldInjectFault] gives
    the same answer and leaves the random source in the same position with or
    without the sweep, and [GetActiveFaults] lists the same faults.  What the
    sweep leaves in the table is, for configured kinds, not expired. *)
Theorem CleanupExpiredFaults_unobservable (rt : RedTeam) (now now' : Z) (ft : FaultType) :
  now <= now' ->
  snd (ShouldInjectFault (CleanupExpiredFaults rt now) ft now') =
    snd (ShouldInjectFault rt ft now') /\
  rand (fst (ShouldInjectFault (CleanupExpiredFaults rt now) ft now')) =
    rand (fst (ShouldInjectFault rt ft now')) /\
  GetActiveFaults (CleanupExpiredFaults rt now) now' = GetActiveFaults rt now' /\
  (forall since config,
     activeFaults (CleanupExpiredFaults rt now) !! ft = Some since ->
     faultConfigs rt !! ft = Some config ->
     now - since < Duration config).
Proof.
  intros Hle. split; [| split; [| split]].
  - unfold ShouldInjectFault.
    change (faultConfigs (CleanupExpiredFaults rt now)) with (faultConfigs rt).
    change (rand (CleanupExpiredFaults rt now)) with (rand rt).
    destruct (faultConfigs rt !! ft) as [config |] eqn:Hc; [| reflexivity].
    destruct (Enabled config); cbn [negb]; [| reflexivity].
    rewrite (within_after_cleanup rt now now' ft config Hle Hc).
    destruct (match activeFaults rt !! ft with
              | Some activeTime => now' - activeTime <? Duration config
              | None => false end); [reflexivity |].
    unfold Float64. destruct (PrimFloat.ltb _ _); reflexivity.
  - unfold ShouldInjectFault.
    change (faultConfigs (CleanupExpiredFaults rt now)) with (faultConfigs rt).
    change (rand (CleanupExpiredFaults rt now)) with (rand rt).
    destruct (faultConfigs rt !! ft) as [config |] eqn:Hc; [| reflexivity].
    destruct (Enabled config); cbn [negb]; [| reflexivity].
    rewrite (within_after_cleanup rt now now' ft config Hle Hc).
    destruct (match activeFaults rt !! ft with
              | Some activeTime => now' - activeTime <? Duration config
              | None => false end); [reflexivity |].
    unfold Float64. destruct (PrimFloat.ltb _ _); reflexivity.
  - apply map_eq. intros k. apply option_eq. intros since.
    rewrite !GetActiveFaults_lookup.
    change (faultConfigs (CleanupExpiredFaults rt now)) with (faultConfigs rt).
    rewrite CleanupExpiredFaults_lookup.
    split.
    + intros [Ha Hrest]. split; [| exact Hrest].
      destruct (activeFaults rt !! k) as [s |]; [| discriminate].
      destruct (expired rt now k s); [discriminate | exact Ha].
    + intros [Ha (config & Hc & He & Hd)]. split; [| eauto].
      rewrite Ha. unfold expired. rewrite Hc.
      destruct (Duration config <=? now - since) eqn:Hexp; [| reflexivity].
      apply Z.leb_le in Hexp. lia.
  - intros since config Ha Hc. rewrite CleanupExpiredFaults_lookup in Ha.
    destruct (activeFaults rt !! ft) as [s |]; [| discriminate].
    unfold expired in Ha. rewrite Hc in Ha.
    destruct (Duration config <=? now - s) eqn:Hexp; [discriminate |].
    injection Ha as <-. apply Z.leb_gt in Hexp. exact Hexp.
Qed.

(** X8.  A disabled kind is never reported and costs no roll, at any
    instant; disabling forgets the active period, so after [EnableFault] the
    next call rolls again even inside the old duration; and disabling one
    kind does not change the answer for another. *)
Theorem DisableFault_forgets (rt : RedTeam) (ft : FaultType) (config : FaultConfig)
    (now : Z) :
  faultConfigs rt !! ft = Some config ->
  let reenabled := EnableFault (DisableFault rt ft) ft in
  ShouldInjectFault (DisableFault rt ft) ft now = (DisableFault rt ft, false) /\
  faultConfigs reenabled !! ft = Some (setEnabled true config) /\
  activeFaults reenabled !! ft = None /\
  pos (rand (fst (ShouldInjectFault reenabled ft now))) = S (pos (rand rt)) /\
  (forall other,
     other <> ft ->
     snd (ShouldInjectFault (DisableFault rt ft) other now) =
       snd (ShouldInjectFault rt other now)).
Proof.
  intros Hc reenabled.
  assert (Hdis : DisableFault rt ft =
            {| faultConfigs := <[ft := setEnabled false config]> (faultConfigs rt);
               activeFaults := delete ft (activeFaults rt);
               rand := rand rt |}).
  { unfold DisableFault. rewrite Hc. reflexivity. }
  assert (Hre : reenabled =
            {| faultConfigs :=
                 <[ft := setEnabled true (setEnabled false config)]>
                   (<[ft := setEnabled false config]> (faultConfigs rt));
               activeFaults := delete ft (activeFaults rt);
               rand := rand rt |}).
  { unfold reenabled, EnableFault. rewrite Hdis. simpl.
    rewrite lookup_insert_eq. reflexivity. }
  split; [| split; [| split; [| split]]].
  - rewrite Hdis. unfold ShouldInjectFault. simpl.
    rewrite lookup_insert_eq. reflexivity.
  - rewrite Hre. simpl. rewrite lookup_insert_eq. reflexivity.
  - rewrite Hre. simpl. apply lookup_delete_eq.
  - rewrite Hre. unfold ShouldInjectFault. simpl.
    rewrite lookup_insert_eq. simpl. rewrite lookup_delete_eq.
    unfold Float64. simpl. destruct (PrimFloat.ltb _ _); reflexivity.
  - intros other Hne. rewrite Hdis. unfold ShouldInjectFault. simpl.
    rewrite lookup_insert_ne by congruence.
    rewrite lookup_delete_ne by congruence.
    destruct (faultConfigs rt !! other) as [c |]; [| reflexivity].
    destruct (Enabled c); simpl; [| reflexivity].
    destruct (match activeFaults rt !! other with
              | Some activeTime => now - activeTime <? Duration c
              | None => false end); [reflexivity |].
    unfold Float64. simpl. destruct (PrimFloat.ltb _ _); reflexivity.
Qed.

Lemma CleanupExpiredFaults_unobservable_witness :
  snd (ShouldInjectFault
         (CleanupExpiredFaults (fst (ShouldInjectFault armed FaultLatency 0)) 150)
         FaultLatency 200) =
  snd (ShouldInjectFault (fst (ShouldInjectFault armed FaultLatency 0)) FaultLatency 200).
Proof.
  apply (CleanupExpiredFaults_unobservable
           (fst (ShouldInjectFault armed FaultLatency 0)) 150 200 FaultLatency).
  lia.
Defined.

Lemma DisableFault_forgets_witness :
  ShouldInjectFault (DisableFault armed FaultLatency) FaultLatency 5 =
    (DisableFault armed FaultLatency, false).
Proof.
  apply (DisableFault_forgets armed FaultLatency (setEnabled true certainLatency) 5).
  apply lookup_insert_eq.
Defined.

End RedTeamTable.

(** ** The healer: its history *)

Section BlueTeamHistory.
Import BlueTeam.
Local Open Scope string_scope.
Local Open Scope Z_scope.

(** The record built for a healing does not depend on the healer's state. *)
Lemma initiateHealing_action (bt bt' : BlueTeam) (issueType : IssueType)
    (strategy : HealingStrategy) (description : string) (now : Z) :
  snd (initiateHealing bt issueType strategy description now) =
  snd (initiateHealing bt' issueType strategy description now).
Proof.
  unfold initiateHealing.
  destruct (executeHealingStrategy strategy _) as [a ok]. reflexivity.
Qed.

(** The history after a healing: the most recent [maxActions] records. *)
Lemma initiateHealing_history (bt : BlueTeam) (issueType : IssueType)
    (strategy : HealingStrategy) (description : string) (now : Z) :
  1 <= maxActions bt ->
  Z.of_nat (length (healingActions bt)) <= maxActions bt ->
  let bt' := fst (initiateHealing bt issueType strategy description now) in
  let action := snd (initiateHealing bt issueType strategy description now) in
  maxActions bt' = maxActions bt /\
  healingActions bt' =
    Anomaly.mostRecent (Z.to_nat (maxActions bt)) (healingActions bt ++ [action])%list.
Proof.
  intros Hmax Hlen. unfold initiateHealing.
  destruct (executeHealingStrategy strategy _) as [a ok]. simpl.
  set (final := if ok then _ else _).
  split; [reflexivity |].
  unfold Anomaly.mostRecent. rewrite length_app. simpl length.
  destruct (Z.of_nat (length (healingActions bt) + 1) >? maxActions bt)%Z eqn:Hover.
  - apply Z.gtb_lt in Hover. f_equal. lia.
  - rewrite Z.gtb_ltb in Hover. apply Z.ltb_ge in Hover.
    replace (length (healingActions bt) + 1 - Z.to_nat (maxActions bt))%nat with 0%nat by lia.
    reflexivity.
Qed.

Lemma mostRecent_suffix {A : Type} (k : nat) (l r : list A) :
  (length r <= k)%nat ->
  Anomaly.mostRecent (length r) (Anomaly.mostRecent k (l ++ r)) = r.
Proof.
  intros Hk. unfold Anomaly.mostRecent.
  rewrite length_skipn, skipn_skipn, length_app.
  replace (length l + length r - (length l + length r - k) - length r
           + (length l + length r - k))%nat with (length l + 0)%nat by lia.
  rewrite skipn_app, Nat.add_0_r, skipn_all.
  replace (length l - length l)%nat with 0%nat by lia. reflexivity.
Qed.

(** The slice arithmetic of a "most recent [limit]" read: [make] and the
    slice expression stay in range and the copy fills the result. *)
Lemma recent_slice {A : Type} (zero : A) (l : list A) (limit : Z) :
  (let len := Z.of_nat (length l) in
   let limit := if (limit <=? 0) || (limit >? len) then len else limit in
   let start := len - limit in
   let start := if start <? 0 then 0 else start in
   match Slice.make zero limit, Slice.from l start with
   | Some result, Some recent => Some (Slice.copy result recent)
   | _, _ => None
   end)
  = Some (Anomaly.mostRecent
            (if (0 <? limit) && (limit <=? Z.of_nat (length l))
             then Z.to_nat limit else length l) l).
Proof.
  cbv zeta. set (len := Z.of_nat (length l)).
  assert (Hcase : exists k : nat,
            (k <= length l)%nat /\
            (if (limit <=? 0) || (limit >? len) then len else limit) = Z.of_nat k /\
            (if (0 <? limit) && (limit <=? len)
             then Z.to_nat limit else length l) = k).
  { destruct (limit <=? 0) eqn:H0; simpl.
    - apply Z.leb_le in H0.
      assert (H1 : (0 <? limit) = false) by (apply Z.ltb_ge; lia).
      rewrite H1. simpl. exists (length l). auto.
    - apply Z.leb_gt in H0.
      assert (H1 : (0 <? limit) = true) by (apply Z.ltb_lt; lia).
      rewrite H1. simpl. rewrite Z.gtb_ltb.
      destruct (len <? limit) eqn:H2.
      + apply Z.ltb_lt in H2.
        assert (H3 : (limit <=? len) = false) by (apply Z.leb_gt; lia).
        rewrite H3. exists (length l). auto.
      + apply Z.ltb_ge in H2.
        assert (H3 : (limit <=? len) = true) by (apply Z.leb_le; lia).
        rewrite H3. exists (Z.to_nat limit). unfold len in H2. split; [lia |].
        split; [lia | reflexivity]. }
  destruct Hcase as (k & Hk & -> & ->).
  assert (Hstart : (if len - Z.of_nat k <? 0 then 0 else len - Z.of_nat k)
                   = Z.of_nat (length l - k)).
  { destruct (len - Z.of_nat k <? 0) eqn:E.
    - apply Z.ltb_lt in E. unfold len in E. lia.
    - unfold len. lia. }
  rewrite Hstart. unfold Slice.make, Slice.from.
  assert (Hneg : (Z.of_nat k <? 0) = false) by (apply Z.ltb_ge; lia).
  rewrite Hneg.
  assert (Hin : ((Z.of_nat (length l - k) <? 0)
                 || (Z.of_nat (length l) <? Z.of_nat (length l - k))) = false).
  { apply orb_false_intro; apply Z.ltb_ge; lia. }
  rewrite Hin. rewrite !Nat2Z.id. f_equal.
  unfold Slice.copy, Anomaly.mostRecent.
  set (recent := skipn (length l - k) l).
  assert (Hrecent : length recent = k) by (unfold recent; rewrite length_skipn; lia).
  rewrite repeat_length, Hrecent.
  rewrite <- Hrecent at 1. rewrite firstn_all.
  rewrite (skipn_all2 (repeat zero k)) by (rewrite repeat_length; lia).
  apply app_nil_r.
Qed.

Lemma GetHealingHistory_mostRecent (bt : BlueTeam) (limit : Z) :
  GetHealingHistory bt limit =
  Some (Anomaly.mostRecent
          (if (0 <? limit) && (limit <=? Z.of_nat (length (healingActions bt)))
           then Z.to_nat limit else length (healingActions bt))
          (healingActions bt)).
Proof.
  unfold GetHealingHistory. apply (recent_slice zeroAction (healingActions bt) limit).
Qed.

(** X9.  [GetHealingHistory] never panics and returns the most recent
    actions in the order they were recorded: the history is some older
    actions followed by the result, which has [limit] actions when
    [0 < limit <= len] and is the whole history otherwise. *)
Theorem GetHealingHistory_recent (bt : BlueTeam) (limit : Z) :
  exists older result,
    GetHealingHistory bt limit = Some result /\
    healingActions bt = (older ++ result)%list /\
    Z.of_nat (length result)
    = (if (0 <? limit) && (limit <=? Z.of_nat (length (healingActions bt)))
       then limit else Z.of_nat (length (healingActions bt))).
Proof.
  rewrite GetHealingHistory_mostRecent.
  set (k := if (0 <? limit) && (limit <=? Z.of_nat (length (healingActions bt)))
            then Z.to_nat limit else length (healingActions bt)).
  exists (firstn (length (healingActions bt) - k) (healingActions bt)),
         (Anomaly.mostRecent k (healingActions bt)).
  split; [reflexivity |]. split.
  - unfold Anomaly.mostRecent. symmetry. apply firstn_skipn.
  - rewrite mostRecent_length. unfold k.
    destruct ((0 <? limit) && (limit <=? Z.of_nat (length (healingActions bt)))) eqn:E.
    + apply andb_prop in E. destruct E as [E1 E2].
      apply Z.ltb_lt in E1. apply Z.leb_le in E2. lia.
    + lia.
Qed.

(** X10.  The record [HealOnDemand] returns is the newest entry of the
    history: asking for one action right after gives exactly that record. *)
Theorem HealOnDemand_recorded (bt : BlueTeam) (issueType : IssueType)
    (strategy : HealingStrategy) (now : Z) :
  1 <= maxActions bt ->
  Z.of_nat (length (healingActions bt)) <= maxActions bt ->
  GetHealingHistory (fst (HealOnDemand bt issueType strategy now)) 1 =
  Some [snd (HealOnDemand bt issueType strategy now)].
Proof.
  intros Hmax Hlen. rewrite GetHealingHistory_mostRecent. unfold HealOnDemand.
  destruct (initiateHealing_history bt issueType strategy
              ("On-demand healing for " +:+ issueType +:+ " using " +:+ strategy +:+ " strategy")
              now Hmax Hlen) as [_ Hhist].
  cbv zeta in Hhist. rewrite Hhist.
  set (action := snd (initiateHealing bt issueType strategy _ now)).
  assert (Hlen' : (1 <= length (Anomaly.mostRecent (Z.to_nat (maxActions bt))
                                  (healingActions bt ++ [action])%list))%nat).
  { rewrite mostRecent_length, length_app. simpl. lia. }
  assert (Hone : (0 <? 1) && (1 <=? Z.of_nat (length (Anomaly.mostRecent
                    (Z.to_nat (maxActions bt)) (healingActions bt ++ [action])%list))) = true).
  { simpl. apply Z.leb_le. lia. }
  rewrite Hone. f_equal.
  apply (mostRecent_suffix (Z.to_nat (maxActions bt)) (healingActions bt) [action]).
  simpl. lia.
Qed.

Lemma HealOnDemand_recorded_witness :
  GetHealingHistory (fst (HealOnDemand fullTeam IssueHighLatency StrategyCircuitBreaker 21)) 1 =
  Some [snd (HealOnDemand fullTeam IssueHighLatency StrategyCircuitBreaker 21)].
Proof.
  apply (HealOnDemand_recorded fullTeam IssueHighLatency StrategyCircuitBreaker 21).
  - vm_compute. discriminate.
  - vm_compute. discriminate.
Defined.

Lemma HealRepeatedly_length (issueType : IssueType) (strategy : HealingStrategy)
    (times : list Z) : forall bt : BlueTeam,
  1 <= maxActions bt ->
  Z.of_nat (length (healingActions bt)) <= maxActions bt ->
  let bt' := HealRepeatedly bt issueType strategy times in
  maxActions bt' = maxActions bt /\
  Z.of_nat (length (healingActions bt')) =
    Z.min (Z.of_nat (length (healingActions bt) + length times)) (maxActions bt).
Proof.
  induction times as [| now rest IH]; intros bt Hmax Hlen.
  - simpl. split; [reflexivity | lia].
  - unfold HealRepeatedly. cbn [fold_left]. fold (HealRepeatedly
      (fst (HealOnDemand bt issueType strategy now)) issueType strategy rest).
    destruct (initiateHealing_history bt issueType strategy
                ("On-demand healing for " +:+ issueType +:+ " using " +:+ strategy +:+ " strategy")
                now Hmax Hlen) as [HM Hhist].
    cbv zeta in HM, Hhist. fold (HealOnDemand bt issueType strategy now) in HM, Hhist.
    assert (Hlen1 : length (healingActions (fst (HealOnDemand bt issueType strategy now)))
                    = Nat.min (length (healingActions bt) + 1) (Z.to_nat (maxActions bt))).
    { rewrite Hhist, mostRecent_length, length_app. reflexivity. }
    destruct (IH (fst (HealOnDemand bt issueType strategy now))) as [HM2 Hlen2];
      [lia | lia |].
    cbv zeta in HM2, Hlen2. split; [congruence |].
    rewrite Hlen2, HM, Hlen1. simpl length. lia.
Qed.

(** X11.  A healer made by [NewBlueTeam] has a capacity of at least one (the
    configured [MaxActions], or 1000 when that is not positive), and after
    [n] on-demand healings its history holds [min n capacity] records. *)
Theorem healing_history_bounded (config : Config) (issueType : IssueType)
    (strategy : HealingStrategy) (times : list Z) :
  let bt := HealRepeatedly (NewBlueTeam config) issueType strategy times in
  maxActions bt = (if MaxActions config <=? 0 then 1000 else MaxActions config) /\
  1 <= maxActions bt /\
  Z.of_nat (length (healingActions bt)) = Z.min (Z.of_nat (length times)) (maxActions bt).
Proof.
  assert (Hcap : 1 <= maxActions (NewBlueTeam config)).
  { unfold NewBlueTeam. simpl. destruct (MaxActions config <=? 0) eqn:E; [lia |].
    apply Z.leb_gt in E. lia. }
  destruct (HealRepeatedly_length issueType strategy times (NewBlueTeam config) Hcap)
    as [HM Hlen].
  { change (healingActions (NewBlueTeam config)) with (@nil HealingAction).
    simpl length. lia. }
  cbv zeta in HM, Hlen. cbv zeta. rewrite HM. split; [reflexivity |].
  split; [exact Hcap |]. rewrite Hlen. reflexivity.
Qed.

End BlueTeamHistory.

(** ** The healer: strategies, health check, statistics *)

Section BlueTeamStrategies.
Import BlueTeam.
Local Open Scope string_scope.
Local Open Scope Z_scope.





Lemma performHealthCheck_history (bt : BlueTeam) (t1 t2 t3 t4 : Z) :
  1 <= maxActions bt ->
  Z.of_nat (length (healingActions bt)) <= maxActions bt ->
  maxActions (performHealthCheck bt t1 t2 t3 t4) = maxActions bt /\
  healingActions (performHealthCheck bt t1 t2 t3 t4) =
    Anomaly.mostRecent (Z.to_nat (maxActions bt))
      (healingActions bt ++
         [snd (checkLatencyIssues bt t1); snd (checkErrorRateIssues bt t2);
          snd (checkResourceIssues bt t3); snd (checkComplianceIssues bt t4)])%list.
Proof.
  intros Hmax Hlen. unfold performHealthCheck.
  unfold checkLatencyIssues, checkErrorRateIssues, checkResourceIssues,
    checkComplianceIssues.
  set (d1 := "High latency detected, applying circuit breaker pattern").
  set (d2 := "High error rate detected, switching to fallback mode").
  set (d3 := "Resource exhaustion detected, performing cleanup").
  set (d4 := "Compliance failure detected, reloading configuration").
  destruct (initiateHealing_history bt IssueHighLatency StrategyCircuitBreaker d1 t1
              Hmax Hlen) as [M1 H1].
  cbv zeta in M1, H1.
  set (b1 := fst (initiateHealing bt IssueHighLatency StrategyCircuitBreaker d1 t1)) in *.
  assert (L1 : Z.of_nat (length (healingActions b1)) <= maxActions b1).
  { rewrite H1, mostRecent_length, M1. lia. }
  destruct (initiateHealing_history b1 IssueHighErrorRate StrategyFallbackMode d2 t2)
    as [M2 H2]; [lia | exact L1 |].
  cbv zeta in M2, H2.
  set (b2 := fst (initiateHealing b1 IssueHighErrorRate StrategyFallbackMode d2 t2)) in *.
  assert (L2 : Z.of_nat (length (healingActions b2)) <= maxActions b2).
  { rewrite H2, mostRecent_length, M2. lia. }
  destruct (initiateHealing_history b2 IssueResourceExhaustion StrategyResourceCleanup d3 t3)
    as [M3 H3]; [lia | exact L2 |].
  cbv zeta in M3, H3.
  set (b3 := fst (initiateHealing b2 IssueResourceExhaustion StrategyResourceCleanup d3 t3)) in *.
  assert (L3 : Z.of_nat (length (healingActions b3)) <= maxActions b3).
  { rewrite H3, mostRecent_length, M3. lia. }
  destruct (initiateHealing_history b3 IssueComplianceFailure StrategyConfigReload d4 t4)
    as [M4 H4]; [lia | exact L3 |].
  cbv zeta in M4, H4.
  split; [congruence |].
  rewrite H4, H3, H2, H1, M3, M2, M1.
  rewrite (initiateHealing_action b3 bt), (initiateHealing_action b2 bt),
    (initiateHealing_action b1 bt).
  repeat (rewrite mostRecent_app || rewrite <- app_assoc). reflexivity.
Qed.

(** X13.  A health check inspects nothing: whatever the state, it records
    four healings (circuit breaker, fallback mode, resource cleanup, config
    reload), all of them successful, and they are the four newest entries of
    the history. *)
Theorem performHealthCheck_always_heals (bt : BlueTeam) (t1 t2 t3 t4 : Z) :
  4 <= maxActions bt ->
  Z.of_nat (length (healingActions bt)) <= maxActions bt ->
  exists a1 a2 a3 a4,
    GetHealingHistory (performHealthCheck bt t1 t2 t3 t4) 4 = Some [a1; a2; a3; a4] /\
    map Strategy [a1; a2; a3; a4] =
      [StrategyCircuitBreaker; StrategyFallbackMode; StrategyResourceCleanup;
       StrategyConfigReload] /\
    map Success [a1; a2; a3; a4] = [true; true; true; true] /\
    map Timestamp [a1; a2; a3; a4] = [t1; t2; t3; t4].
Proof.
  intros Hmax Hlen.
  destruct (performHealthCheck_history bt t1 t2 t3 t4) as [HM Hhist]; [lia | exact Hlen |].
  set (four := [snd (checkLatencyIssues bt t1); snd (checkErrorRateIssues bt t2);
                snd (checkResourceIssues bt t3); snd (checkComplianceIssues bt t4)]) in *.
  exists (snd (checkLatencyIssues bt t1)), (snd (checkErrorRateIssues bt t2)),
    (snd (checkResourceIssues bt t3)), (snd (checkComplianceIssues bt t4)).
  split; [| repeat split].
  rewrite GetHealingHistory_mostRecent, Hhist.
  assert (Hfour : (0 <? 4) && (4 <=? Z.of_nat (length (Anomaly.mostRecent
                     (Z.to_nat (maxActions bt)) (healingActions bt ++ four)%list))) = true).
  { simpl. apply Z.leb_le. rewrite mostRecent_length, length_app. simpl length. lia. }
  rewrite Hfour. f_equal.
  apply (mostRecent_suffix (Z.to_nat (maxActions bt)) (healingActions bt) four).
  simpl. lia.
Qed.

Lemma performHealthCheck_always_heals_witness :
  exists a1 a2 a3 a4,
    GetHealingHistory (performHealthCheck fullTeam 21 22 23 24) 4 = Some [a1; a2; a3; a4] /\
    map Strategy [a1; a2; a3; a4] =
      [StrategyCircuitBreaker; StrategyFallbackMode; StrategyResourceCleanup;
       StrategyConfigReload] /\
    map Success [a1; a2; a3; a4] = [true; true; true; true] /\
    map Timestamp [a1; a2; a3; a4] = [21; 22; 23; 24].
Proof.
  apply (performHealthCheck_always_heals fullTeam 21 22 23 24).
  - vm_compute. discriminate.
  - vm_compute. discriminate.
Defined.

Lemma increment_lookup (k s : string) (m : gmap string Z) :
  default 0 (increment k m !! s) =
  default 0 (m !! s) + (if String.eqb k s then 1 else 0).
Proof.
  unfold increment. destruct (String.eqb_spec k s) as [-> | Hne].
  - rewrite lookup_insert_eq. reflexivity.
  - rewrite lookup_insert_ne by exact Hne. lia.
Qed.

Lemma usesOf_cons (s : string) (a : HealingAction) (rest : list HealingAction) :
  usesOf s (a :: rest) = (if String.eqb (Strategy a) s then 1 else 0) + usesOf s rest.
Proof.
  unfold usesOf. cbn [List.filter].
  destruct (String.eqb (Strategy a) s); cbn [length]; lia.
Qed.

Lemma fold_countAction (actions : list HealingAction) : forall stats : HealingStats,
  let result := fold_left countAction actions stats in
  total_actions result = total_actions stats /\
  successful_heals result + failed_heals result =
    successful_heals stats + failed_heals stats + Z.of_nat (length actions) /\
  successful_heals result =
    successful_heals stats + Z.of_nat (length (List.filter Success actions)) /\
  forall s, default 0 (strategies_used result !! s) =
            default 0 (strategies_used stats !! s) + usesOf s actions.
Proof.
  induction actions as [| a rest IH]; intros stats.
  - simpl. unfold usesOf. simpl. repeat split; intros; lia.
  - cbn [fold_left]. destruct (IH (countAction stats a)) as (Ht & Hsum & Hsucc & Hs).
    cbv zeta in *. split; [rewrite Ht; reflexivity |]. split; [| split].
    + rewrite Hsum. simpl. destruct (Success a); simpl length; lia.
    + rewrite Hsucc. simpl. destruct (Success a); simpl length; lia.
    + intros s. rewrite Hs, usesOf_cons. cbn [countAction strategies_used].
      rewrite increment_lookup. symmetry. apply Z.add_assoc.
Qed.

(** X14.  In the healing statistics the successful and the failed healings
    add up to the total, the successful ones are the records marked
    successful, and each strategy's counter is the number of records of the
    history that used it (absent when there is none). *)
Theorem GetHealingStats_counts (bt : BlueTeam) :
  let stats := GetHealingStats bt in
  total_actions stats = Z.of_nat (length (healingActions bt)) /\
  successful_heals stats + failed_heals stats = total_actions stats /\
  successful_heals stats = Z.of_nat (length (List.filter Success (healingActions bt))) /\
  forall s, default 0 (strategies_used stats !! s) = usesOf s (healingActions bt).
Proof.
  cbv zeta. unfold GetHealingStats.
  match goal with |- context [fold_left countAction _ ?init] =>
    destruct (fold_countAction (healingActions bt) init) as (Ht & Hsum & Hsucc & Hs) end.
  cbv zeta in *. simpl in Ht, Hsum, Hsucc, Hs.
  split; [exact Ht |]. split; [rewrite Ht; lia |]. split; [lia |].
  intros s. rewrite Hs, lookup_empty. simpl. lia.
Qed.

End BlueTeamStrategies.

(** ** The SBOH monitor: buffers, metrics and the two compliance checks *)

Section HypervisorMonitor.
Import Hypervisor.

(** On a non-empty buffer the sort and the read stay in range and the value
    read is one of the samples. *)
Lemma calculateP95Latency_nonempty (samples : list float) :
  samples <> [] ->
  exists p95, calculateP95Latency samples = Some p95 /\ In p95 samples.
Proof.
  unfold calculateP95Latency.
  destruct samples as [| s0 rest]; [congruence |]. intros _.
  change (Nat.eqb (length (s0 :: rest)) 0) with false. cbv iota.
  rewrite bubbleSort_passes.
  assert (Hperm : Permutation (passes floatGt (s0 :: rest)) (s0 :: rest))
    by apply outer_loop_Permutation.
  set (sorted := passes floatGt (s0 :: rest)) in *.
  assert (Hlen : length sorted = S (length rest))
    by (rewrite (Permutation_length Hperm); reflexivity).
  set (idx := if (length sorted <=? p95Index (length sorted))%nat
              then (length sorted - 1)%nat else p95Index (length sorted)).
  assert (Hidx : (idx < length sorted)%nat).
  { unfold idx. destruct (length sorted <=? p95Index (length sorted))%nat eqn:E.
    - lia.
    - apply Nat.leb_gt in E. exact E. }
  destruct (lookup_lt_is_Some_2 sorted idx Hidx) as [p95 Hp].
  exists p95. split; [exact Hp |].
  apply (Permutation_in _ Hperm).
  apply list_elem_of_In. apply (list_elem_of_lookup_2 _ idx). exact Hp.
Qed.

Lemma calculateP95Latency_total (samples : list float) :
  exists p95, calculateP95Latency samples = Some p95.
Proof.
  destruct samples as [| s0 rest].
  - exists 0%float. reflexivity.
  - destruct (calculateP95Latency_nonempty (s0 :: rest)) as (p95 & Hp & _);
      [discriminate | eauto].
Qed.

(** X15.  [calculateP95Latency] never panics, whatever the samples (NaN
    included): it returns 0 for an empty buffer and otherwise one of the
    samples of the buffer. *)
Theorem calculateP95Latency_is_a_sample (samples : list float) :
  exists p95,
    calculateP95Latency samples = Some p95 /\
    (samples = [] -> p95 = 0%float) /\
    (samples <> [] -> In p95 samples).
Proof.
  destruct samples as [| s0 rest].
  - exists 0%float. split; [reflexivity |]. split; [reflexivity | contradiction].
  - destruct (calculateP95Latency_nonempty (s0 :: rest)) as (p95 & Hp & Hin);
      [discriminate |].
    exists p95. split; [exact Hp |]. split; [discriminate | intros _; exact Hin].
Qed.

Lemma calculateP95Latency_is_a_sample_witness :
  exists p95,
    calculateP95Latency [3%float; nan; 1%float] = Some p95 /\
    In p95 [3%float; nan; 1%float].
Proof.
  destruct (calculateP95Latency_is_a_sample [3%float; nan; 1%float])
    as (p95 & Hp & _ & Hin).
  exists p95. split; [exact Hp |]. apply Hin. discriminate.
Defined.

(** One recorded decision: nothing panics, each of the three buffers gets its
    value and loses its oldest one together with the others, and the metrics
    are those of the new buffers. *)
Lemma RecordDecision_step (h : Hypervisor) (latencyMS : float) (success : bool)
    (revenue : float) :
  exists h',
    RecordDecision h latencyMS success revenue = Some h' /\
    maxSamples h' = maxSamples h /\
    (let over := Z.of_nat (length (latencySamples h) + 1) >? maxSamples h in
     latencySamples h' =
       (if over then skipn 1 (latencySamples h ++ [latencyMS])
        else latencySamples h ++ [latencyMS]) /\
     decisionOutcomes h' =
       (if over then skipn 1 (decisionOutcomes h ++ [success])
        else decisionOutcomes h ++ [success]) /\
     revenueTracking h' =
       (if over then skipn 1 (revenueTracking h ++ [revenue])
        else revenueTracking h ++ [revenue])) /\
    updateMetrics (latencySamples h') (decisionOutcomes h') (revenueTracking h')
      = Some (metrics h').
Proof.
  unfold RecordDecision. rewrite length_app. simpl length.
  set (over := Z.of_nat (length (latencySamples h) + 1) >? maxSamples h).
  set (ls := if over then _ else latencySamples h ++ [latencyMS]).
  set (ds := if over then _ else decisionOutcomes h ++ [success]).
  set (rs := if over then _ else revenueTracking h ++ [revenue]).
  assert (Hm : exists m, updateMetrics ls ds rs = Some m).
  { unfold updateMetrics.
    destruct (calculateP95Latency_total ls) as (p95 & ->). eauto. }
  destruct Hm as [m Hm]. rewrite Hm. eexists. split; [reflexivity |]. simpl.
  split; [reflexivity |]. split; [| exact Hm].
  split; [reflexivity |]. split; reflexivity.
Qed.

(** Dropping the oldest value when the buffer outgrows the limit keeps the
    most recent [limit] values. *)
Lemma trim_mostRecent {A : Type} (limit : Z) (n : nat) (xs : list A) (x : A) :
  1 <= limit ->
  n = length (Anomaly.mostRecent (Z.to_nat limit) xs) ->
  (if Z.of_nat (n + 1) >? limit
   then skipn 1 (Anomaly.mostRecent (Z.to_nat limit) xs ++ [x])
   else Anomaly.mostRecent (Z.to_nat limit) xs ++ [x])
  = Anomaly.mostRecent (Z.to_nat limit) (xs ++ [x]).
Proof.
  intros Hlimit ->.
  rewrite <- (mostRecent_app (Z.to_nat limit) xs [x]).
  set (buffer := Anomaly.mostRecent (Z.to_nat limit) xs).
  assert (Hlen : (length buffer <= Z.to_nat limit)%nat)
    by (unfold buffer; rewrite mostRecent_length; lia).
  unfold Anomaly.mostRecent. rewrite length_app. simpl length.
  destruct (Z.of_nat (length buffer + 1) >? limit) eqn:E.
  - apply Z.gtb_lt in E.
    replace (length buffer + 1 - Z.to_nat limit)%nat with 1%nat by lia.
    reflexivity.
  - rewrite Z.gtb_ltb in E. apply Z.ltb_ge in E.
    replace (length buffer + 1 - Z.to_nat limit)%nat with 0%nat by lia.
    reflexivity.
Qed.

(** Decisions recorded after [past] ones: the three buffers hold the most
    recent [maxSamples] values of the whole sequence. *)
Lemma RecordAll_recent (h : Hypervisor) (past decisions : list (float * bool * float)) :
  1 <= maxSamples h ->
  latencySamples h =
    Anomaly.mostRecent (Z.to_nat (maxSamples h)) (map (fun d => fst (fst d)) past) ->
  decisionOutcomes h =
    Anomaly.mostRecent (Z.to_nat (maxSamples h)) (map (fun d => snd (fst d)) past) ->
  revenueTracking h =
    Anomaly.mostRecent (Z.to_nat (maxSamples h)) (map snd past) ->
  exists h',
    RecordAll h decisions = Some h' /\
    maxSamples h' = maxSamples h /\
    latencySamples h' =
      Anomaly.mostRecent (Z.to_nat (maxSamples h))
        (map (fun d => fst (fst d)) (past ++ decisions)) /\
    decisionOutcomes h' =
      Anomaly.mostRecent (Z.to_nat (maxSamples h))
        (map (fun d => snd (fst d)) (past ++ decisions)) /\
    revenueTracking h' =
      Anomaly.mostRecent (Z.to_nat (maxSamples h)) (map snd (past ++ decisions)) /\
    (decisions <> [] ->
     updateMetrics (latencySamples h') (decisionOutcomes h') (revenueTracking h')
       = Some (metrics h')).
Proof.
  revert h past. induction decisions as [| [[latencyMS success] revenue] rest IH];
    intros h past Hmax Hls Hds Hrs.
  - exists h. rewrite app_nil_r. simpl. repeat (split; [auto; fail |]). congruence.
  - destruct (RecordDecision_step h latencyMS success revenue)
      as (h1 & Hrec & Hmax1 & (Hls1 & Hds1 & Hrs1) & Hmetrics1).
    assert (Hn : forall (A : Type) (f : float * bool * float -> A),
               length (latencySamples h) =
               length (Anomaly.mostRecent (Z.to_nat (maxSamples h)) (map f past))).
    { intros A f. rewrite Hls, !mostRecent_length, !length_map. reflexivity. }
    set (n := length (latencySamples h)) in *.
    rewrite Hls in Hls1. rewrite Hds in Hds1. rewrite Hrs in Hrs1.
    rewrite (trim_mostRecent _ _ _ _ Hmax (Hn _ _)) in Hls1.
    rewrite (trim_mostRecent _ _ _ _ Hmax (Hn _ _)) in Hds1.
    rewrite (trim_mostRecent _ _ _ _ Hmax (Hn _ _)) in Hrs1.
    destruct (IH h1 (past ++ [(latencyMS, success, revenue)])) as
      (h' & Hall & Hmax' & Hls' & Hds' & Hrs' & Hmetrics').
    + rewrite Hmax1. exact Hmax.
    + rewrite Hmax1, Hls1, map_app. reflexivity.
    + rewrite Hmax1, Hds1, map_app. reflexivity.
    + rewrite Hmax1, Hrs1, map_app. reflexivity.
    + exists h'. simpl RecordAll. rewrite Hrec.
      rewrite <- app_assoc in Hls', Hds', Hrs'. simpl app in Hls', Hds', Hrs'.
      rewrite Hmax1 in *.
      split; [exact Hall |]. split; [exact Hmax' |].
      split; [exact Hls' |]. split; [exact Hds' |]. split; [exact Hrs' |].
      intros _. destruct rest as [| d rest'].
      * simpl in Hall. injection Hall as <-. exact Hmetrics1.
      * apply Hmetrics'. discriminate.
Qed.

Lemma NewHypervisor_limit (configMaxSamples : Z) :
  1 <= maxSamples (NewHypervisor configMaxSamples).
Proof.
  unfold NewHypervisor. simpl.
  destruct (configMaxSamples <=? 0) eqn:E; [lia |].
  apply Z.leb_gt in E. lia.
Qed.

(** X16.  Starting from [NewHypervisor], recording decisions never panics;
    the three buffers stay in step, each holding the most recent [maxSamples]
    values in arrival order, and after at least one decision the stored
    metrics are those of the buffers, with [TotalDecisions] the smaller of
    the number of decisions and [maxSamples]. *)
Theorem RecordAll_buffers_in_step (configMaxSamples : Z)
    (decisions : list (float * bool * float)) :
  exists h,
    RecordAll (NewHypervisor configMaxSamples) decisions = Some h /\
    let limit := Z.to_nat (maxSamples (NewHypervisor configMaxSamples)) in
    latencySamples h = Anomaly.mostRecent limit (map (fun d => fst (fst d)) decisions) /\
    decisionOutcomes h = Anomaly.mostRecent limit (map (fun d => snd (fst d)) decisions) /\
    revenueTracking h = Anomaly.mostRecent limit (map snd decisions) /\
    (decisions <> [] ->
     updateMetrics (latencySamples h) (decisionOutcomes h) (revenueTracking h)
       = Some (metrics h) /\
     TotalDecisions (metrics h) = Z.of_nat (Nat.min (length decisions) limit)).
Proof.
  pose proof (NewHypervisor_limit configMaxSamples) as Hmax.
  destruct (RecordAll_recent (NewHypervisor configMaxSamples) [] decisions Hmax)
    as (h & Hall & _ & Hls & Hds & Hrs & Hmetrics); try reflexivity.
  simpl app in *.
  exists h. split; [exact Hall |]. cbv zeta.
  split; [exact Hls |]. split; [exact Hds |]. split; [exact Hrs |].
  intros Hne. specialize (Hmetrics Hne). split; [exact Hmetrics |].
  unfold updateMetrics in Hmetrics.
  destruct (calculateP95Latency (latencySamples h)); [| discriminate].
  injection Hmetrics as <-. simpl.
  rewrite Hds, mostRecent_length, length_map. reflexivity.
Qed.

Lemma RecordAll_buffers_in_step_witness :
  exists h,
    RecordAll (NewHypervisor 2)
      [(80%float, true, defaultPrice); (10%float, false, defaultPrice);
       (20%float, true, defaultPrice)] = Some h /\
    latencySamples h = [10%float; 20%float] /\
    decisionOutcomes h = [false; true] /\
    TotalDecisions (metrics h) = 2.
Proof.
  destruct (RecordAll_buffers_in_step 2
              [(80%float, true, defaultPrice); (10%float, false, defaultPrice);
               (20%float, true, defaultPrice)])
    as (h & Hh & Hls & Hds & _ & Hmetrics).
  exists h. split; [exact Hh |]. split; [exact Hls |]. split; [exact Hds |].
  apply Hmetrics. discriminate.
Defined.

Lemma countSuccessfulDecisions_from (outcomes : list bool) (start : Z) :
  fold_left (fun (count : Z) (success : bool) => if success then count + 1 else count)
            outcomes start
  = start + Z.of_nat (length (List.filter (fun success => success) outcomes)).
Proof.
  revert start. induction outcomes as [| [|] rest IH]; intros start; simpl.
  - lia.
  - rewrite IH. lia.
  - apply IH.
Qed.

Lemma countSuccessfulDecisions_filter (outcomes : list bool) :
  countSuccessfulDecisions outcomes
  = Z.of_nat (length (List.filter (fun success => success) outcomes)).
Proof. unfold countSuccessfulDecisions. rewrite countSuccessfulDecisions_from. lia. Qed.

(** X17.  After at least one recorded decision the counters of the metrics
    describe the buffer: [SuccessfulDecisions] is the number of successes
    among the retained outcomes, and
    [0 <= SuccessfulDecisions <= TotalDecisions <= maxSamples]. *)
Theorem metrics_counters_bounded (configMaxSamples : Z)
    (decisions : list (float * bool * float)) :
  decisions <> [] ->
  exists h,
    RecordAll (NewHypervisor configMaxSamples) decisions = Some h /\
    SuccessfulDecisions (metrics h)
      = Z.of_nat (length (List.filter (fun success => success) (decisionOutcomes h))) /\
    0 <= SuccessfulDecisions (metrics h) <= TotalDecisions (metrics h) /\
    1 <= TotalDecisions (metrics h) <= maxSamples h.
Proof.
  intros Hne.
  pose proof (NewHypervisor_limit configMaxSamples) as Hmax.
  destruct (RecordAll_recent (NewHypervisor configMaxSamples) [] decisions Hmax)
    as (h & Hall & Hmax' & _ & Hds & _ & Hmetrics); try reflexivity.
  simpl app in *. specialize (Hmetrics Hne).
  exists h. split; [exact Hall |].
  unfold updateMetrics in Hmetrics.
  destruct (calculateP95Latency (latencySamples h)); [| discriminate].
  injection Hmetrics as <-. simpl.
  rewrite countSuccessfulDecisions_filter.
  split; [reflexivity |].
  pose proof (List.filter_length_le (fun success : bool => success) (decisionOutcomes h))
    as Hfilter.
  assert (Hlen : length (decisionOutcomes h)
                 = Nat.min (length decisions) (Z.to_nat (maxSamples h))).
  { rewrite Hds, mostRecent_length, length_map, Hmax'. reflexivity. }
  assert (1 <= length decisions)%nat
    by (destruct decisions; [congruence | simpl; lia]).
  rewrite Hmax' in *. lia.
Qed.

Lemma metrics_counters_bounded_witness :
  exists h,
    RecordAll (NewHypervisor 2)
      [(80%float, true, defaultPrice); (10%float, false, defaultPrice)] = Some h /\
    0 <= SuccessfulDecisions (metrics h) <= TotalDecisions (metrics h).
Proof.
  destruct (metrics_counters_bounded 2
              [(80%float, true, defaultPrice); (10%float, false, defaultPrice)]
              ltac:(discriminate))
    as (h & Hh & _ & Hbounds & _).
  exists h. split; [exact Hh | exact Hbounds].
Defined.

(** X18.  The A-2 verdict depends on the retained latencies only: after at
    least one decision, if each of the most recent [maxSamples] latencies is
    at most 50 the hypervisor is A-2 compliant whatever came before, and if
    none of them is at most 50 (a NaN counts as such) it is not. *)
Theorem A2_verdict_of_recent_latencies (configMaxSamples : Z)
    (decisions : list (float * bool * float)) :
  decisions <> [] ->
  exists h,
    RecordAll (NewHypervisor configMaxSamples) decisions = Some h /\
    let recent :=
      Anomaly.mostRecent (Z.to_nat (maxSamples (NewHypervisor configMaxSamples)))
        (map (fun d => fst (fst d)) decisions) in
    (Forall (fun latencyMS => PrimFloat.leb latencyMS 50%float = true) recent ->
     IsAxiomA2Compliant h = true) /\
    (Forall (fun latencyMS => PrimFloat.leb latencyMS 50%float = false) recent ->
     IsAxiomA2Compliant h = false).
Proof.
  intros Hne.
  pose proof (NewHypervisor_limit configMaxSamples) as Hmax.
  destruct (RecordAll_recent (NewHypervisor configMaxSamples) [] decisions Hmax)
    as (h & Hall & _ & Hls & _ & _ & Hmetrics); try reflexivity.
  simpl app in *. specialize (Hmetrics Hne).
  exists h. split; [exact Hall |]. cbv zeta. rewrite <- Hls.
  assert (Hsome : latencySamples h <> []).
  { intros Hnil. apply (f_equal (@length float)) in Hnil.
    rewrite Hls, mostRecent_length, length_map in Hnil.
    destruct decisions; [congruence | simpl length in Hnil; lia]. }
  destruct (calculateP95Latency_nonempty _ Hsome) as (p95 & Hp & Hin).
  unfold updateMetrics in Hmetrics. rewrite Hp in Hmetrics.
  unfold IsAxiomA2Compliant. injection Hmetrics as <-. simpl.
  split; intros Hall'; rewrite List.Forall_forall in Hall'; apply Hall'; exact Hin.
Qed.

Lemma A2_verdict_of_recent_latencies_witness :
  exists h,
    RecordAll (NewHypervisor 2)
      [(80%float, true, defaultPrice); (10%float, false, defaultPrice);
       (20%float, true, defaultPrice)] = Some h /\
    IsAxiomA2Compliant h = true.
Proof.
  destruct (A2_verdict_of_recent_latencies 2
              [(80%float, true, defaultPrice); (10%float, false, defaultPrice);
               (20%float, true, defaultPrice)]
              ltac:(discriminate))
    as (h & Hh & Hgood & _).
  exists h. split; [exact Hh |]. apply Hgood.
  repeat constructor.
Defined.

Lemma ObserveAll_RecordAll (h : Hypervisor) (runs : list (Z * bool)) :
  ObserveAll h runs
  = RecordAll h
      (map (fun run => (PrimFloat.div (ofInt (fst run)) 1000000%float,
                        negb (snd run), defaultPrice)) runs).
Proof.
  revert h. induction runs as [| [latencyNS failed] rest IH]; intros h; simpl.
  - reflexivity.
  - unfold ObserveExecution.
    destruct (RecordDecision h _ (negb failed) defaultPrice); [apply IH | reflexivity].
Qed.

Lemma zeroRevenues_from (revenues : list float) (start : Z) :
  Forall (fun revenue => PrimFloat.eqb revenue 0%float = false) revenues ->
  fold_left (fun (zeroCount : Z) (revenue : float) =>
               if PrimFloat.eqb revenue 0%float then zeroCount + 1 else zeroCount)
            revenues start = start.
Proof.
  intros Hall. revert start.
  induction Hall as [| revenue rest Hrevenue _ IH]; intros start; simpl.
  - reflexivity.
  - rewrite Hrevenue. apply IH.
Qed.

Lemma calculateMonetizationAccuracy_no_zero (revenues : list float) :
  Forall (fun revenue => PrimFloat.eqb revenue 0%float = false) revenues ->
  calculateMonetizationAccuracy revenues = 100%float.
Proof.
  intros Hall. unfold calculateMonetizationAccuracy, zeroRevenues.
  rewrite (zeroRevenues_from _ _ Hall).
  destruct (Nat.eqb (length revenues) 0); reflexivity.
Qed.

(** X19.  A fresh hypervisor fails the A-4 check, its accuracy metric being
    the zero value and not the 100 that an empty buffer is given; from the
    first observed execution on, whatever the latencies and errors, the
    accuracy is exactly 100 and the A-4 check holds, since every observation
    records the price 0.001. *)
Theorem ObserveExecution_monetization_accuracy (configMaxSamples : Z)
    (runs : list (Z * bool)) :
  IsAxiomA4Compliant (NewHypervisor configMaxSamples) = false /\
  (runs <> [] ->
   exists h,
     ObserveAll (NewHypervisor configMaxSamples) runs = Some h /\
     MonetizationAccuracy (metrics h) = 100%float /\
     IsAxiomA4Compliant h = true).
Proof.
  split; [reflexivity |]. intros Hne.
  pose proof (NewHypervisor_limit configMaxSamples) as Hmax.
  rewrite ObserveAll_RecordAll.
  set (decisions := map _ runs).
  assert (Hne' : decisions <> [])
    by (unfold decisions; destruct runs; [congruence | discriminate]).
  destruct (RecordAll_recent (NewHypervisor configMaxSamples) [] decisions Hmax)
    as (h & Hall & _ & _ & _ & Hrs & Hmetrics); try reflexivity.
  simpl app in *. specialize (Hmetrics Hne').
  exists h. split; [exact Hall |].
  assert (Hprices : Forall (fun revenue => PrimFloat.eqb revenue 0%float = false)
                           (revenueTracking h)).
  { rewrite Hrs. unfold Anomaly.mostRecent. apply Forall_drop.
    unfold decisions. rewrite map_map. simpl.
    apply List.Forall_forall. intros revenue Hin.
    apply in_map_iff in Hin. destruct Hin as (run & <- & _). reflexivity. }
  unfold updateMetrics in Hmetrics.
  destruct (calculateP95Latency (latencySamples h)); [| discriminate].
  unfold IsAxiomA4Compliant. injection Hmetrics as <-. simpl.
  rewrite (calculateMonetizationAccuracy_no_zero _ Hprices).
  split; reflexivity.
Qed.

Lemma ObserveExecution_monetization_accuracy_witness :
  exists h,
    ObserveAll (NewHypervisor 0) [(75000000, true); (1000, false)] = Some h /\
    IsAxiomA4Compliant h = true.
Proof.
  destruct (ObserveExecution_monetization_accuracy 0 [(75000000, true); (1000, false)])
    as [_ Hafter].
  destruct (Hafter ltac:(discriminate)) as (h & Hh & _ & Hok).
  exists h. split; [exact Hh | exact Hok].
Defined.

End HypervisorMonitor.

(** ** The audit store: capacity, read-back and the compliance report *)

Section AuditStore.
Import Audit.
Local Open Scope string_scope.
Local Open Scope Z_scope.

Lemma GetEvents_recent (a : Auditor) (limit : Z) :
  GetEvents a limit =
  Some (Anomaly.mostRecent
          (if (0 <? limit) && (limit <=? Z.of_nat (length (events a)))
           then Z.to_nat limit else length (events a))
          (events a)).
Proof. unfold GetEvents. apply (recent_slice zeroEvent (events a) limit). Qed.





(** X21.  Reading back what was just logged.  On a store with room for at
    least 99 events [GetEvents 1] after [LogEvent] returns exactly the event
    just logged, with its id and time stamp, unless the capacity is 99 and the
    store was full: the eviction then removes 100 events, the new one
    included, and the store is left empty. *)
Theorem LogEvent_GetEvents_latest (a : Auditor) (event : AuditEvent) (now : Z) :
  99 <= maxEvents a ->
  Z.of_nat (length (events a)) <= maxEvents a ->
  0 <= eventCounter a < 2 ^ 63 - 1 ->
  exists a',
    LogEvent a event now = Some a' /\
    (Z.of_nat (length (events a)) < maxEvents a \/ 100 <= maxEvents a ->
     GetEvents a' 1 = Some [stampedEvent (eventCounter a + 1) now event]) /\
    (Z.of_nat (length (events a)) = maxEvents a -> maxEvents a = 99 ->
     events a' = [] /\ GetEvents a' 1 = Some []).
Proof.
  intros Hcap Hlen Hctr.
  destruct (LogEvent_large_capacity a event now Hcap Hlen Hctr)
    as (a' & Hlog & _ & _ & _ & Hbelow & Hfull).
  cbv zeta in *. fold (stampedEvent (eventCounter a + 1) now event) in *.
  set (stamped := stampedEvent (eventCounter a + 1) now event) in *.
  exists a'. split; [exact Hlog |].
  assert (Hlast : forall kept : list AuditEvent,
            events a' = (kept ++ [stamped])%list -> GetEvents a' 1 = Some [stamped]).
  { intros kept Hkept. rewrite GetEvents_recent, Hkept, length_app. simpl length.
    assert (Hone : (0 <? 1) && (1 <=? Z.of_nat (length kept + 1)) = true).
    { apply andb_true_intro. split; [reflexivity | apply Z.leb_le; lia]. }
    rewrite Hone. unfold Anomaly.mostRecent. rewrite length_app. simpl length.
    replace (length kept + 1 - Z.to_nat 1)%nat with (length kept) by lia.
    rewrite skipn_app, skipn_all, Nat.sub_diag. reflexivity. }
  split.
  - intros Hroom.
    destruct (Z.eq_dec (Z.of_nat (length (events a))) (maxEvents a)) as [Heq | Hne].
    + assert (H100 : 100 <= maxEvents a) by lia.
      assert (Hq : maxEvents a / 10 <= maxEvents a)
        by (apply Z.div_le_upper_bound; lia).
      apply (Hlast (skipn (Z.to_nat (Z.max (maxEvents a / 10) 100)) (events a))).
      rewrite (Hfull Heq), skipn_app.
      replace (Z.to_nat (Z.max (maxEvents a / 10) 100) - length (events a))%nat
        with 0%nat by lia.
      reflexivity.
    + apply (Hlast (events a)). apply Hbelow. lia.
  - intros Heq H99.
    assert (Hempty : events a' = []).
    { rewrite (Hfull Heq), H99. apply skipn_all2.
      rewrite length_app. simpl length. change (Z.max (99 / 10) 100) with 100. lia. }
    split; [exact Hempty |].
    rewrite GetEvents_recent, Hempty. reflexivity.
Qed.

Lemma LogEvent_GetEvents_latest_witness :
  exists a',
    LogEvent {| events := []; written := []; maxEvents := 100; eventCounter := 0 |}
             (decisionEvent "Decision processed") 7 = Some a' /\
    GetEvents a' 1
      = Some [stampedEvent 1 7 (decisionEvent "Decision processed")].
Proof.
  destruct (LogEvent_GetEvents_latest
              {| events := []; written := []; maxEvents := 100; eventCounter := 0 |}
              (decisionEvent "Decision processed") 7
              ltac:(simpl; lia) ltac:(simpl; lia) ltac:(simpl; lia))
    as (a' & Hlog & Hlatest & _).
  exists a'. split; [exact Hlog |]. apply Hlatest. right. simpl. lia.
Defined.

Lemma bump_lookup (key other : string) (m : gmap string Z) :
  default 0 (bump key m !! other)
  = default 0 (m !! other) + (if String.eqb key other then 1 else 0).
Proof.
  unfold bump. destruct (String.eqb_spec key other) as [-> | Hne].
  - rewrite lookup_insert_eq. reflexivity.
  - rewrite lookup_insert_ne by exact Hne. lia.
Qed.

Lemma withStatus_cons (status : ComplianceStatus) (event : AuditEvent)
    (evs : list AuditEvent) :
  withStatus status (event :: evs)
  = (if String.eqb (Status event) status then 1 else 0) + withStatus status evs.
Proof.
  unfold withStatus. simpl.
  destruct (String.eqb (Status event) status); simpl length; lia.
Qed.

Lemma withComponent_cons (component : string) (event : AuditEvent)
    (evs : list AuditEvent) :
  withComponent component (event :: evs)
  = (if String.eqb (Component event) component then 1 else 0)
    + withComponent component evs.
Proof.
  unfold withComponent. simpl.
  destruct (String.eqb (Component event) component); simpl length; lia.
Qed.

Lemma countEvent_skipped (since : Z) (start : ComplianceReport) (event : AuditEvent) :
  (Timestamp event <? since) = true -> countEvent since start event = start.
Proof. intros Hbefore. unfold countEvent. rewrite Hbefore. reflexivity. Qed.

Lemma countEvent_counted (since : Z) (start : ComplianceReport) (event : AuditEvent) :
  (Timestamp event <? since) = false ->
  let report := countEvent since start event in
  let one (status : ComplianceStatus) :=
    if String.eqb (Status event) status then 1 else 0 in
  total_events report = total_events start /\
  compliant_events report = compliant_events start + one StatusCompliant /\
  non_compliant_events report = non_compliant_events start + one StatusNonCompliant /\
  warning_events report = warning_events start + one StatusWarning /\
  error_events report = error_events start + one StatusError /\
  components report = bump (Component event) (components start).
Proof.
  intros Hbefore. cbv zeta. unfold countEvent. rewrite Hbefore. simpl.
  destruct (String.eqb_spec (Status event) StatusCompliant) as [-> | _];
    [simpl; repeat split; lia |].
  destruct (String.eqb_spec (Status event) StatusNonCompliant) as [-> | _];
    [simpl; repeat split; lia |].
  destruct (String.eqb_spec (Status event) StatusWarning) as [-> | _];
    [simpl; repeat split; lia |].
  destruct (String.eqb (Status event) StatusError); simpl; repeat split; lia.
Qed.

(** The loop of the report, from any starting report. *)
Lemma fold_countEvent (since : Z) (evs : list AuditEvent) (start : ComplianceReport) :
  let report := fold_left (countEvent since) evs start in
  let seen := considered since evs in
  total_events report = total_events start /\
  compliant_events report = compliant_events start + withStatus StatusCompliant seen /\
  non_compliant_events report
    = non_compliant_events start + withStatus StatusNonCompliant seen /\
  warning_events report = warning_events start + withStatus StatusWarning seen /\
  error_events report = error_events start + withStatus StatusError seen /\
  (forall component,
     default 0 (components report !! component)
     = default 0 (components start !! component) + withComponent component seen).
Proof.
  cbv zeta. revert start. induction evs as [| event rest IH]; intros start.
  - simpl. unfold withStatus, withComponent. simpl.
    repeat (split; [lia |]). intros component. lia.
  - simpl fold_left. unfold considered. simpl List.filter. fold (considered since rest).
    destruct (IH (countEvent since start event)) as (Ht & Hc & Hn & Hw & He & Hcomp).
    destruct (Timestamp event <? since) eqn:Hbefore; simpl negb; cbv iota.
    + rewrite (countEvent_skipped since start event Hbefore) in *.
      repeat (split; [assumption |]). exact Hcomp.
    + destruct (countEvent_counted since start event Hbefore)
        as (Ht1 & Hc1 & Hn1 & Hw1 & He1 & Hcomp1).
      rewrite !withStatus_cons.
      split; [lia |]. split; [lia |]. split; [lia |]. split; [lia |]. split; [lia |].
      intros component. rewrite Hcomp, Hcomp1, withComponent_cons, bump_lookup. lia.
Qed.

Lemma withStatus_disjoint (evs : list AuditEvent) :
  withStatus StatusCompliant evs + withStatus StatusNonCompliant evs
  + withStatus StatusWarning evs + withStatus StatusError evs
  <= Z.of_nat (length evs).
Proof.
  induction evs as [| event rest IH].
  - unfold withStatus. simpl. lia.
  - rewrite !withStatus_cons. simpl length.
    destruct (String.eqb_spec (Status event) StatusCompliant) as [-> | _];
      [change (String.eqb StatusCompliant StatusNonCompliant) with false;
       change (String.eqb StatusCompliant StatusWarning) with false;
       change (String.eqb StatusCompliant StatusError) with false; lia |].
    destruct (String.eqb_spec (Status event) StatusNonCompliant) as [-> | _];
      [change (String.eqb StatusNonCompliant StatusWarning) with false;
       change (String.eqb StatusNonCompliant StatusError) with false; lia |].
    destruct (String.eqb_spec (Status event) StatusWarning) as [-> | _];
      [change (String.eqb StatusWarning StatusError) with false; lia |].
    destruct (String.eqb (Status event) StatusError); lia.
Qed.

(** X22.  The compliance report: [total_events] is the size of the whole
    store whatever [since] is, while each status counter and each component
    counter is the number of stored events stamped at or after [since] with
    that status or component; the four status counters together never exceed
    the number of events at or after [since], hence never [total_events]. *)
Theorem GetComplianceReport_counts (a : Auditor) (since : Z) :
  let report := GetComplianceReport a since in
  let seen := considered since (events a) in
  total_events report = Z.of_nat (length (events a)) /\
  compliant_events report = withStatus StatusCompliant seen /\
  non_compliant_events report = withStatus StatusNonCompliant seen /\
  warning_events report = withStatus StatusWarning seen /\
  error_events report = withStatus StatusError seen /\
  (forall component,
     default 0 (components report !! component) = withComponent component seen) /\
  compliant_events report + non_compliant_events report
  + warning_events report + error_events report
  <= Z.of_nat (length seen) <= total_events report.
Proof.
  cbv zeta. unfold GetComplianceReport.
  destruct (fold_countEvent since (events a)
              {| total_events := Z.of_nat (length (events a));
                 compliant_events := 0; non_compliant_events := 0;
                 warning_events := 0; error_events := 0;
                 protocols := ∅; components := ∅ |})
    as (Ht & Hc & Hn & Hw & He & Hcomp).
  simpl in Ht, Hc, Hn, Hw, He.
  split; [exact Ht |]. split; [exact Hc |]. split; [exact Hn |].
  split; [exact Hw |]. split; [exact He |].
  split.
  { intros component. rewrite Hcomp. simpl. rewrite lookup_empty. simpl. lia. }
  rewrite Ht, Hc, Hn, Hw, He.
  split; [apply withStatus_disjoint |].
  unfold considered. apply Nat2Z.inj_le. apply List.filter_length_le.
Qed.

End AuditStore.

(** ** The Proof-of-Value tracker *)

Section TrackerLatency.
Import Anomaly Monetization.
Context {F : Type} `{Float64 F}.

Lemma totalLatency_from (lo hi : Z) (rs : list (DecisionRecord F)) (start : Z) :
  0 <= lo ->
  Forall (fun record => lo <= ProcessingNS record <= hi) rs ->
  0 <= start ->
  start + Z.of_nat (length rs) * hi < 2 ^ 63 ->
  let total :=
    fold_left (fun total record => wrap64 (total + ProcessingNS record)) rs start in
  start + Z.of_nat (length rs) * lo <= total <= start + Z.of_nat (length rs) * hi.
Proof.
  intros Hlo Hall. cbv zeta. revert start.
  induction Hall as [| record rest Hrecord _ IH]; intros start Hstart Hroom.
  - simpl. lia.
  - simpl fold_left. simpl length in *. rewrite Nat2Z.inj_succ in *.
    rewrite Z.mul_succ_l in *.
    assert (Hrest : 0 <= Z.of_nat (length rest) * hi)
      by (apply Z.mul_nonneg_nonneg; lia).
    rewrite wrap64_small by lia.
    specialize (IH (start + ProcessingNS record) ltac:(lia) ltac:(lia)). lia.
Qed.

(** X23.  With non-negative latencies whose sum fits an [int64], the average
    [GetAverageLatency] returns lies between the smallest and the largest
    latency recorded. *)
Theorem GetAverageLatency_between (mt : MonetizationTracker F) (lo hi : Z) :
  records mt <> [] ->
  0 <= lo ->
  Forall (fun record => lo <= ProcessingNS record <= hi) (records mt) ->
  Z.of_nat (length (records mt)) * hi < 2 ^ 63 ->
  lo <= GetAverageLatency mt <= hi.
Proof.
  intros Hne Hlo Hall Hroom. unfold GetAverageLatency, totalLatency.
  destruct (records mt) as [| r0 rest] eqn:Hrecords; [congruence |].
  rewrite <- Hrecords in *. 
  assert (Hn : 1 <= Z.of_nat (length (records mt)))
    by (rewrite Hrecords; simpl length; lia).
  assert (Hzero : Nat.eqb (length (records mt)) 0 = false)
    by (apply Nat.eqb_neq; lia).
  rewrite Hzero.
  pose proof (totalLatency_from lo hi (records mt) 0 Hlo Hall ltac:(lia) ltac:(lia))
    as Htotal.
  cbv zeta in Htotal.
  set (total := fold_left _ (records mt) 0) in *.
  set (n := Z.of_nat (length (records mt))) in *.
  rewrite Z.quot_div_nonneg by nia.
  assert (Hdiv : lo <= total / n <= hi).
  { split.
    - apply Z.div_le_lower_bound; lia.
    - apply Z.div_le_upper_bound; lia. }
  assert (Hhi : hi < 2 ^ 63) by nia.
  rewrite wrap64_small by lia. exact Hdiv.
Qed.

End TrackerLatency.

Lemma GetAverageLatency_between_witness :
  10 <= Monetization.GetAverageLatency
          (Monetization.RecordDecision
             (Monetization.RecordDecision
                (Monetization.NewTracker 1%float 0%float "pov_records.jsonl")
                "TS-1" 5%float 10 0%float 1)
             "TS-2" 6%float 21 2%float 2) <= 21.
Proof.
  apply (GetAverageLatency_between
           (Monetization.RecordDecision
              (Monetization.RecordDecision
                 (Monetization.NewTracker 1%float 0%float "pov_records.jsonl")
                 "TS-1" 5%float 10 0%float 1)
              "TS-2" 6%float 21 2%float 2) 10 21).
  - discriminate.
  - lia.
  - repeat constructor; simpl; lia.
  - simpl. lia.
Defined.

(** ** The token bucket *)

Section TokenBucketFacts.
Import RateLimit.

(** X26.  One call of [Allow] on a bucket whose tokens are within
    [0, capacity], when the tokens to add fit an [int64] next to the
    capacity: the tokens stay within [0, capacity], a refused call leaves
    the bucket empty, and an allowed one takes exactly one token from the
    refilled bucket, leaving it below capacity. *)
Theorem Allow_tokens_in_range (tb : TokenBucket) (now : Z) :
  0 <= tokens tb <= capacity tb ->
  capacity tb < 2 ^ 63 ->
  - 2 ^ 63 <= wholeSeconds (Sub now (lastRefill tb)) * refillRate tb ->
  capacity tb + wholeSeconds (Sub now (lastRefill tb)) * refillRate tb < 2 ^ 63 ->
  let tb' := fst (Allow tb now) in
  let allowed := snd (Allow tb now) in
  capacity tb' = capacity tb /\
  refillRate tb' = refillRate tb /\
  0 <= tokens tb' <= capacity tb /\
  (allowed = false -> tokens tb' = 0 /\ tokens (refill tb now) = 0) /\
  (allowed = true ->
   tokens tb' = tokens (refill tb now) - 1 /\ tokens tb' < capacity tb).
Proof.
  intros Htokens Hcap Hlow Hhigh. cbv zeta.
  assert (Hrefill : capacity (refill tb now) = capacity tb /\
                    refillRate (refill tb now) = refillRate tb /\
                    0 <= tokens (refill tb now) <= capacity tb).
  { unfold refill.
    set (toAdd := wholeSeconds (Sub now (lastRefill tb)) * refillRate tb) in *.
    rewrite (wrap64_small toAdd) by lia.
    destruct (toAdd >? 0) eqn:Hadd; [| auto].
    apply Z.gtb_lt in Hadd. simpl.
    rewrite wrap64_small by lia. unfold min.
    destruct (capacity tb <? tokens tb + toAdd) eqn:Hmin.
    - repeat split; lia.
    - apply Z.ltb_ge in Hmin. repeat split; lia. }
  destruct Hrefill as (Hc & Hr & Ht).
  unfold Allow. set (refilled := refill tb now) in *.
  destruct (tokens refilled >? 0) eqn:Hpos; simpl.
  - apply Z.gtb_lt in Hpos. rewrite wrap64_small by lia.
    repeat split; try assumption; try lia; discriminate.
  - rewrite Z.gtb_ltb in Hpos. apply Z.ltb_ge in Hpos.
    repeat split; try assumption; try lia; discriminate.
Qed.

Lemma Allow_tokens_in_range_witness :
  snd (Allow (NewTokenBucket 100 1000 0) 2500000000) = true /\
  tokens (fst (Allow (NewTokenBucket 100 1000 0) 2500000000)) = 99.
Proof.
  destruct (Allow_tokens_in_range (NewTokenBucket 100 1000 0) 2500000000
              ltac:(simpl; lia) ltac:(simpl; lia)
              ltac:(vm_compute; discriminate) ltac:(vm_compute; reflexivity))
    as (_ & _ & _ & _ & Hallowed).
  split; [reflexivity |].
  destruct (Hallowed ltac:(reflexivity)) as [Htokens _].
  rewrite Htokens. reflexivity.
Defined.

Lemma Allow_same_second (tb : TokenBucket) (now : Z) :
  wholeSeconds (Sub now (lastRefill tb)) = 0 ->
  0 <= tokens tb < 2 ^ 63 ->
  Allow tb now =
    (if tokens tb >? 0
     then {| capacity := capacity tb; tokens := tokens tb - 1;
             refillRate := refillRate tb; lastRefill := lastRefill tb |}
     else tb,
     tokens tb >? 0).
Proof.
  intros Hzero Htokens. unfold Allow, refill. rewrite Hzero. simpl.
  destruct (tokens tb >? 0) eqn:Hpos; [| reflexivity].
  apply Z.gtb_lt in Hpos. rewrite wrap64_small by lia. reflexivity.
Qed.

Lemma AllowAll_same_second (times : list Z) (tb : TokenBucket) :
  Forall (fun now => wholeSeconds (Sub now (lastRefill tb)) = 0) times ->
  0 <= tokens tb < 2 ^ 63 ->
  snd (AllowAll tb times)
  = map (fun i => Z.of_nat i <? tokens tb) (seq 0 (length times)).
Proof.
  revert tb. induction times as [| now rest IH]; intros tb Hall Htokens.
  - reflexivity.
  - inversion Hall as [| ? ? Hnow Hrest]; subst.
    simpl AllowAll. rewrite (Allow_same_second tb now Hnow Htokens).
    destruct (tokens tb >? 0) eqn:Hpos.
    + apply Z.gtb_lt in Hpos.
      set (tb1 := {| capacity := capacity tb; tokens := tokens tb - 1;
                     refillRate := refillRate tb; lastRefill := lastRefill tb |}).
      specialize (IH tb1 Hrest ltac:(simpl; lia)).
      destruct (AllowAll tb1 rest) as [tb2 answers]. simpl in IH |- *.
      rewrite IH, <- seq_shift, map_map. f_equal.
      * symmetry. apply Z.ltb_lt. lia.
      * apply map_ext. intros i.
        destruct (Z.of_nat i <? tokens tb - 1) eqn:E.
        -- apply Z.ltb_lt in E. symmetry. apply Z.ltb_lt. lia.
        -- apply Z.ltb_ge in E. symmetry. apply Z.ltb_ge. lia.
    + rewrite Z.gtb_ltb in Hpos. apply Z.ltb_ge in Hpos.
      specialize (IH tb Hrest Htokens).
      destruct (AllowAll tb rest) as [tb2 answers]. simpl in IH |- *.
      rewrite IH, <- seq_shift, map_map. f_equal.
      * symmetry. apply Z.ltb_ge. lia.
      * apply map_ext. intros i.
        transitivity false; [apply Z.ltb_ge; lia | symmetry; apply Z.ltb_ge; lia].
Qed.

(** X27.  The burst.  Of the requests that reach a new bucket before a whole
    second has passed since its creation, exactly the first [capacity] are
    allowed and every later one is refused, whatever the refill rate. *)
Theorem burst_allows_capacity (capacity refillRate created : Z) (times : list Z) :
  0 <= capacity < 2 ^ 63 ->
  Forall (fun now => wholeSeconds (Sub now created) = 0) times ->
  snd (AllowAll (NewTokenBucket capacity refillRate created) times)
  = map (fun i => Z.of_nat i <? capacity) (seq 0 (length times)).
Proof.
  intros Hcap Hall.
  apply (AllowAll_same_second times (NewTokenBucket capacity refillRate created));
    simpl; assumption.
Qed.

Lemma burst_allows_capacity_witness :
  snd (AllowAll (NewTokenBucket 2 1000 5) [6; 500000005; 1000000004])
  = [true; true; false].
Proof.
  apply (burst_allows_capacity 2 1000 5 [6; 500000005; 1000000004]).
  - lia.
  - repeat constructor.
Defined.

End TokenBucketFacts.
